(** * PDFManager: the splitter and its presentation shell

    A shallow embedding of [src/splitter.py] (class [PDFSplitter]) and of the
    parts of [src/app.py] (class [MainWindow]) that act on the splitter:
    the progress receiver [update_progress], the archival step [zip_pdf] and
    the slots of the window ([openFileDialog], [openDirectoryDialog],
    [ValueChangePages], [splitPDF], [clearFields]).

    Python integers are [Z], Python floats are IEEE 754 binary64 values
    ([spec_float] with precision 53 and maximal exponent 1024), strings are
    [string], the file system is a finite map from paths to file contents,
    and a method that can raise returns a [Result] next to the state it
    leaves behind.

    What the code calls but does not contain is modelled by its effect on
    the code: a file is what [PyPDF2.PdfReader] makes of it, the input
    stream is lost once the run writes over its own input, and a write
    into the output directory succeeds, the directory being the one the
    window has checked. *)

From Stdlib Require Import ZArith Lia SpecFloat Ascii String.
From stdpp Require Import base option list strings pretty gmap.

Local Open Scope Z_scope.

Set Warnings "-register-all".

(** ** Exceptions and results *)

Inductive Exception : Type :=
| FileNotFoundError
| PdfReadError
| PdfStreamError
| FileNotDecryptedError
| ValueError
| IndexError
| ZeroDivisionError
| OverflowError.

#[global] Instance Exception_eq_dec : EqDecision Exception.
Proof. solve_decision. Defined.

(** What an [except cls:] clause catches: the class itself and its
    subclasses. In [PyPDF2.errors], [PdfStreamError] and
    [FileNotDecryptedError] derive from [PdfReadError]. *)
Definition is_instance (e cls : Exception) : bool :=
  match e, cls with
  | PdfStreamError, PdfReadError => true
  | FileNotDecryptedError, PdfReadError => true
  | _, _ => bool_decide (e = cls)
  end.

Inductive Result (A : Type) : Type :=
| Ok (a : A)
| Raise (e : Exception).

Arguments Ok {A} a.
Arguments Raise {A} e.

Definition is_ok {A} (r : Result A) : bool :=
  match r with Ok _ => true | Raise _ => false end.

(** ** Python numbers *)

Module Py.

(** binary64 *)
Definition prec : Z := 53.
Definition emax : Z := 1024.

(** An integer as an (unrounded) float value: mantissa [n], exponent 0. *)
Definition exact (n : Z) : spec_float :=
  match n with
  | Z0 => S754_zero false
  | Zpos p => S754_finite false p 0
  | Zneg p => S754_finite true p 0
  end.

(** [float(n)]: the integer rounded to the nearest binary64, ties to even. *)
Definition float_of_int (n : Z) : spec_float :=
  binary_normalize prec emax n 0 false.

(** [a / b] on two integers: CPython returns the quotient of the exact
    integers rounded once to binary64; a zero divisor and a quotient beyond
    the largest float raise. *)
Definition int_truediv (a b : Z) : Result spec_float :=
  if b =? 0 then Raise ZeroDivisionError
  else match SFdiv prec emax (exact a) (exact b) with
       | S754_infinity _ => Raise OverflowError
       | q => Ok q
       end.

(** [x * n] on a float and an integer: the integer is converted first. *)
Definition float_mul_int (x : spec_float) (n : Z) : spec_float :=
  SFmul prec emax x (float_of_int n).

(** [int(x)]: truncation toward zero. *)
Definition int_of_float (x : spec_float) : Result Z :=
  match x with
  | S754_zero _ => Ok 0
  | S754_finite s m e =>
      let v := match e with
               | Zneg p => Zpos m / 2 ^ Zpos p
               | _ => Zpos m * 2 ^ e
               end in
      Ok (if s then - v else v)
  | S754_infinity _ => Raise OverflowError
  | S754_nan => Raise ValueError
  end.

(** [range(start, stop, step)], with CPython's length computation. *)
Definition range_length (start stop step : Z) : Z :=
  if 0 <? step then
    if start <? stop then (stop - start - 1) / step + 1 else 0
  else
    if stop <? start then (start - stop - 1) / (- step) + 1 else 0.

Definition range (start stop step : Z) : Result (list Z) :=
  if step =? 0 then Raise ValueError
  else Ok (map (fun i : nat => start + Z.of_nat i * step)
             (seq 0 (Z.to_nat (range_length start stop step)))).

(** [l[i]]: a negative index counts from the end. *)
Definition index {A} (l : list A) (i : Z) : Result A :=
  let n := Z.of_nat (length l) in
  let j := if i <? 0 then i + n else i in
  if (0 <=? j) && (j <? n) then
    match l !! Z.to_nat j with
    | Some x => Ok x
    | None => Raise IndexError
    end
  else Raise IndexError.

End Py.

(** The percentage computed at line 91-92 of splitter.py:
    [int((start_page + pages_per_pdf) / total_pages * 100)]. *)
Definition progress_value (start_page pages_per_pdf total_pages : Z) : Result Z :=
  match Py.int_truediv (start_page + pages_per_pdf) total_pages with
  | Raise e => Raise e
  | Ok q => Py.int_of_float (Py.float_mul_int q 100)
  end.

(** ** The splitter object (splitter.py, class PDFSplitter) *)

Record PDFSplitter : Type := mkPDFSplitter {
  input_pdf_path : string;
  output_directory_path : string;
  pages_per_pdf : Z;
  compress_zip : bool;
  sub_pdf_num : Z;
  cancel : bool
}.

Definition set_sub_pdf_num (n : Z) (self : PDFSplitter) : PDFSplitter :=
  mkPDFSplitter (input_pdf_path self) (output_directory_path self)
    (pages_per_pdf self) (compress_zip self) n (cancel self).

Definition set_cancel (b : bool) (self : PDFSplitter) : PDFSplitter :=
  mkPDFSplitter (input_pdf_path self) (output_directory_path self)
    (pages_per_pdf self) (compress_zip self) (sub_pdf_num self) b.

(** [defaultAttributes], lines 30-41. *)
Definition defaultAttributes (self : PDFSplitter) : PDFSplitter :=
  mkPDFSplitter "" "" 1 false 0 false.

(** [cancel_progress], lines 97-103. *)
Definition cancel_progress (self : PDFSplitter) : PDFSplitter :=
  set_cancel true self.

(** Line 85: [f"{self.output_directory_path}/{self.sub_pdf_num}.pdf"]. *)
Definition output_pdf_path (self : PDFSplitter) : string :=
  output_directory_path self +:+ "/" +:+ pretty (sub_pdf_num self) +:+ ".pdf".

(** ** The world the splitter runs in *)

Section World.

(** A page of a document; PyPDF2 page objects are opaque to the splitter. *)
Context {Page : Type}.

(** What a file holds, as far as [PyPDF2.PdfReader] is concerned:
    - a document the reader parses and whose pages it reads;
    - bytes the reader rejects with [PdfReadError] when it is built;
    - an encrypted document: the reader is built, but its pages cannot be
      reached without the password;
    - bytes on which building the reader raises [e], which need not be a
      [PdfReadError]. *)
Inductive FileData : Type :=
| PdfData (pages : list Page)
| NonPdfData
| LockedPdfData
| BrokenData (e : Exception).

(** A reader once it is built: it has the page tree of its document, or
    knows the document to be encrypted. *)
Inductive Reader : Type :=
| ReaderOf (pages : list Page)
| LockedReader.

(** The progress dialog of the shell (app.py): the values it was given by
    [setValue], oldest first, and the answers [wasCanceled()] will give at
    its coming calls (none left: not cancelled). *)
Record QProgressDialog : Type := mkDialog {
  shown : list Z;
  clicks : list bool
}.

Record State : Type := mkState {
  splitter : PDFSplitter;
  files : gmap string FileData;
  progress_bar : QProgressDialog
}.

(** Computations that read and write the state and may raise; the state
    reached when an exception is raised is kept, as in Python. *)
Definition M (A : Type) : Type := State -> Result A * State.

Definition ret {A} (a : A) : M A := fun st => (Ok a, st).

Definition bind {A B} (m : M A) (f : A -> M B) : M B :=
  fun st => match m st with
            | (Ok a, st') => f a st'
            | (Raise e, st') => (Raise e, st')
            end.

Definition lift {A} (r : Result A) : M A := fun st => (r, st).

Definition get_self : M PDFSplitter := fun st => (Ok (splitter st), st).

Definition modify_self (f : PDFSplitter -> PDFSplitter) : M unit :=
  fun st => (Ok tt, mkState (f (splitter st)) (files st) (progress_bar st)).

(** [try: m except exc: handler] *)
Definition try_except {A} (m : M A) (exc : Exception) (handler : M A) : M A :=
  fun st => match m st with
            | (Raise e, st') =>
                if is_instance e exc then handler st' else (Raise e, st')
            | r => r
            end.

Notation "x <- m ;; k" := (bind m (fun x => k))
  (at level 100, m at next level, right associativity).
Notation "m ;;; k" := (bind m (fun _ => k))
  (at level 100, right associativity).

(** [for x in xs: body], where [body] answers whether it reached [break]. *)
Fixpoint for_each {A} (xs : list A) (body : A -> M bool) : M unit :=
  match xs with
  | [] => ret tt
  | x :: xs' => stop <- body x ;; if stop : bool then ret tt else for_each xs' body
  end.

(** [[f(x) for x in xs]] *)
Fixpoint map_M {A B} (f : A -> M B) (xs : list A) : M (list B) :=
  match xs with
  | [] => ret []
  | x :: xs' => y <- f x ;; ys <- map_M f xs' ;; ret (y :: ys)
  end.

(** *** Files *)

(** [open(path, "rb")]: what the stream holds when it is opened. [files]
    holds the regular files that can be read; a path outside it is taken
    to name nothing. (For the path of a directory the call raises
    [IsADirectoryError] instead: the statements below that name the
    exception are about paths that name nothing at all.) *)
Definition open_rb (path : string) : M FileData :=
  fun st => match files st !! path with
            | Some d => (Ok d, st)
            | None => (Raise FileNotFoundError, st)
            end.

(** [PyPDF2.PdfReader(stream)]: the reader parses the document when it is
    built and reads the pages later, through the stream. *)
Definition PdfReader (d : FileData) : Result Reader :=
  match d with
  | PdfData pages => Ok (ReaderOf pages)
  | NonPdfData => Raise PdfReadError
  | LockedPdfData => Ok LockedReader
  | BrokenData e => Raise e
  end.

(** [reader.pages], as [len] needs it at line 71. *)
Definition reader_pages (reader : Reader) : Result (list Page) :=
  match reader with
  | ReaderOf pages => Ok pages
  | LockedReader => Raise FileNotDecryptedError
  end.

(** Whether the run has written over its own input. Line 69 keeps the
    input stream open for the whole run, and line 88 truncates the file it
    opens; the files written so far are numbers 1 to [sub_pdf_num - 1] of
    the output directory. *)
Definition input_overwritten (self : PDFSplitter) : bool :=
  existsb (fun n : nat =>
             String.eqb (input_pdf_path self)
               (output_pdf_path (set_sub_pdf_num (Z.of_nat n + 1) self)))
    (seq 0 (Z.to_nat (sub_pdf_num self - 1))).

(** [reader.pages[page_num]] as [writer.add_page] takes it, line 82: the
    page is read through the input stream, and the read fails once the
    file under the stream has been replaced by an output of the run. *)
Definition reader_page (pages : list Page) (page_num : Z) : M Page :=
  fun st => if input_overwritten (splitter st) then (Raise PdfStreamError, st)
            else (Py.index pages page_num, st).

(** [open(path, "wb")] and [writer.write], lines 88-89: the document
    replaces whatever the path held. The output directory is taken to exist
    and to be writable: it is the precondition the specification gives to
    the split, and what [MainWindow.splitPDF] checks before the run (a
    missing directory makes [open] raise [FileNotFoundError]). *)
Definition write_pdf (path : string) (pages : list Page) : M unit :=
  fun st => (Ok tt, mkState (splitter st) (<[path := PdfData pages]> (files st))
                      (progress_bar st)).

(** *** The shell's side of the two signals (app.py) *)

Definition setValue (v : Z) : M unit :=
  fun st => (Ok tt, mkState (splitter st) (files st)
                      (mkDialog (shown (progress_bar st) ++ [v])
                         (clicks (progress_bar st)))).

Definition wasCanceled : M bool :=
  fun st => (Ok (hd false (clicks (progress_bar st))),
             mkState (splitter st) (files st)
               (mkDialog (shown (progress_bar st))
                  (tl (clicks (progress_bar st))))).

(** [cancel_signal.send()]: the one receiver, connected in
    [PDFSplitter.__init__], is [cancel_progress]. *)
Definition cancel_signal_send : M unit := modify_self cancel_progress.

(** [MainWindow.update_progress], app.py lines 267-282. *)
Definition update_progress (progress : Z) : M unit :=
  setValue progress ;;;
  c <- wasCanceled ;;
  if c : bool then cancel_signal_send else ret tt.

(** [progress_signal.send(progress=...)]: the one receiver, connected in
    [MainWindow.__init__], is [update_progress]. *)
Definition progress_signal_send (progress : Z) : M unit :=
  update_progress progress.

(** *** PDFSplitter methods *)

(** [check_pdf], lines 43-48. Given a path, [PdfReader] opens it itself. *)
Definition check_pdf (pdf : string) : M bool :=
  try_except
    (d <- open_rb pdf ;; _ <- lift (PdfReader d) ;; ret true)
    PdfReadError
    (ret false).

(** [read_pdf], lines 50-59. *)
Definition read_pdf (d : FileData) : M Reader := lift (PdfReader d).

(** The body of the loop of [split_pdf], lines 75-95, [pages] being
    [reader.pages]; it answers whether the [break] of line 95 was taken. *)
Definition split_chunk (pages : list Page) (total_pages start_page : Z) : M bool :=
  self <- get_self ;;
  page_nums <- lift (Py.range start_page
                       (Z.min (start_page + pages_per_pdf self) total_pages) 1) ;;
  writer <- map_M (reader_page pages) page_nums ;;
  self <- get_self ;;
  let path := output_pdf_path self in
  modify_self (set_sub_pdf_num (sub_pdf_num self + 1)) ;;;
  write_pdf path writer ;;;
  self <- get_self ;;
  progress <- lift (progress_value start_page (pages_per_pdf self) total_pages) ;;
  progress_signal_send progress ;;;
  self <- get_self ;;
  ret (cancel self).

(** [split_pdf], lines 61-95. *)
Definition split_pdf : M unit :=
  self <- get_self ;;
  input_file <- open_rb (input_pdf_path self) ;;
  reader <- read_pdf input_file ;;
  pages <- lift (reader_pages reader) ;;
  let total_pages := Z.of_nat (length pages) in
  modify_self (set_sub_pdf_num 1) ;;;
  self <- get_self ;;
  start_pages <- lift (Py.range 0 total_pages (pages_per_pdf self)) ;;
  for_each start_pages (split_chunk pages total_pages).

End World.

Arguments FileData : clear implicits.
Arguments Reader : clear implicits.
Arguments State : clear implicits.
Arguments M : clear implicits.

Arguments QProgressDialog : clear implicits.

(** *** What the shell does to a splitter between runs (app.py) *)

Inductive Op : Type :=
| SetInput (path : string)        (* openFileDialog *)
| SetOutput (path : string)       (* openDirectoryDialog *)
| SetPages (n : Z)                (* ValueChangePages *)
| SetCompress (b : bool)          (* splitPDF, line 190 *)
| CheckPdf (path : string)
| Split
| Cancel                          (* cancel_signal.send() *)
| Click (answers : list bool)     (* the user acts on the progress dialog *)
| ClearFields.                    (* clearFields *)

Section Shell.

Context {Page : Type}.

(** The reset of the splitter: [self.splitter.defaultAttributes()], line 265. *)
Definition reset (st : State Page) : State Page :=
  snd (modify_self defaultAttributes st).

(** The state an operation leaves, whether it returned or raised. *)
Definition run_op (op : Op) (st : State Page) : State Page :=
  let self := splitter st in
  match op with
  | SetInput path =>
      mkState (mkPDFSplitter path (output_directory_path self) (pages_per_pdf self)
                 (compress_zip self) (sub_pdf_num self) (cancel self))
        (files st) (progress_bar st)
  | SetOutput path =>
      mkState (mkPDFSplitter (input_pdf_path self) path (pages_per_pdf self)
                 (compress_zip self) (sub_pdf_num self) (cancel self))
        (files st) (progress_bar st)
  | SetPages n =>
      mkState (mkPDFSplitter (input_pdf_path self) (output_directory_path self) n
                 (compress_zip self) (sub_pdf_num self) (cancel self))
        (files st) (progress_bar st)
  | SetCompress b =>
      mkState (mkPDFSplitter (input_pdf_path self) (output_directory_path self)
                 (pages_per_pdf self) b (sub_pdf_num self) (cancel self))
        (files st) (progress_bar st)
  | CheckPdf path => snd (check_pdf path st)
  | Split => snd (split_pdf st)
  | Cancel => snd (cancel_signal_send st)
  | Click answers =>
      mkState self (files st) (mkDialog (shown (progress_bar st)) answers)
  | ClearFields => reset st
  end.

Definition run_ops (ops : list Op) (st : State Page) : State Page :=
  foldl (fun st op => run_op op st) st ops.

End Shell.

(** ** Archiving (app.py, MainWindow.zip_pdf) *)

(** [posixpath] and the string methods [zip_pdf] uses. *)
Module OsPath.

Definition is_slash (c : ascii) : bool := Ascii.eqb c "/".

(** [s.rfind(c)]: the index of the last occurrence, [None] for Python's -1. *)
Fixpoint rfind_from (c : ascii) (s : string) (pos last : nat) (found : bool)
  : option nat :=
  match s with
  | EmptyString => if found then Some last else None
  | String a r =>
      if Ascii.eqb a c then rfind_from c r (S pos) pos true
      else rfind_from c r (S pos) last found
  end.

Definition rfind (c : ascii) (s : string) : option nat :=
  rfind_from c s 0 0 false.

(** [i = p.rfind('/') + 1] *)
Definition after_last_slash (p : string) : nat :=
  match rfind "/" p with Some i => S i | None => 0%nat end.

(** [s.rstrip('/')] *)
Fixpoint rstrip_slash (s : string) : string :=
  match s with
  | EmptyString => EmptyString
  | String c r =>
      match rstrip_slash r with
      | EmptyString => if is_slash c then EmptyString else String c EmptyString
      | r' => String c r'
      end
  end.

(** [head == '/' * len(head)] *)
Fixpoint all_slashes (s : string) : bool :=
  match s with
  | EmptyString => true
  | String c r => is_slash c && all_slashes r
  end.

(** [os.path.basename(p)]: [p[i:]] *)
Definition basename (p : string) : string :=
  let i := after_last_slash p in
  substring i (String.length p - i) p.

(** [os.path.dirname(p)]: [p[:i]], without trailing slashes unless it
    consists of slashes only. *)
Definition dirname (p : string) : string :=
  let head := substring 0 (after_last_slash p) p in
  if all_slashes head then head else rstrip_slash head.

(** [a.endswith('/')] *)
Fixpoint ends_with_slash (a : string) : bool :=
  match a with
  | EmptyString => false
  | String c EmptyString => is_slash c
  | String _ r => ends_with_slash r
  end.

(** [os.path.join(a, b)] *)
Definition join (a b : string) : string :=
  match b with
  | String "/" _ => b
  | _ => match a with
         | EmptyString => b
         | _ => if ends_with_slash a then a +:+ b else a +:+ "/" +:+ b
         end
  end.

(** [s.split(sep)[0]]: what precedes the first [sep]. *)
Fixpoint split_first (sep : ascii) (s : string) : string :=
  match s with
  | EmptyString => EmptyString
  | String c r => if Ascii.eqb c sep then EmptyString else String c (split_first sep r)
  end.

End OsPath.

(** A directory as [os.walk] sees it: entries in the order [os.scandir]
    lists them. *)
Inductive Node : Type :=
| File (name : string)
| Dir (name : string) (entries : list Node).

Definition node_name (n : Node) : string :=
  match n with File name => name | Dir name _ => name end.

Definition is_dir (n : Node) : bool :=
  match n with File _ => false | Dir _ _ => true end.

Definition dir_names (entries : list Node) : list string :=
  map node_name (filter (fun n => is_dir n = true) entries).

Definition file_names (entries : list Node) : list string :=
  map node_name (filter (fun n => is_dir n = false) entries).

(** [os.walk(top)], top-down: [(root, directories, files)] triples. *)
Fixpoint walk_node (parent : string) (n : Node) : list (string * list string * list string) :=
  match n with
  | File _ => []
  | Dir name entries =>
      let root := OsPath.join parent name in
      (root, dir_names entries, file_names entries)
        :: flat_map (walk_node root) entries
  end.

Definition os_walk (top : string) (entries : list Node)
  : list (string * list string * list string) :=
  (top, dir_names entries, file_names entries) :: flat_map (walk_node top) entries.

(** An archive: its path and its entries, each an [arcname] and the path of
    the file stored under it, in the order they were written. *)
Record Archive : Type := mkArchive {
  archive_path : string;
  archive_entries : list (string * string)
}.

(** Lines 304-311: where the archive goes. *)
Definition zip_path (self : PDFSplitter) : string :=
  let parent_directory := OsPath.dirname (output_directory_path self) in
  let file_name_no_extension :=
    OsPath.split_first "." (OsPath.basename (input_pdf_path self)) in
  parent_directory +:+ "/" +:+ OsPath.basename file_name_no_extension +:+ ".zip".

(** Lines 316-323: the inner loop over the files of one directory; the
    answers of the archive dialog's [wasCanceled()] are consumed one per
    file, and [break] leaves this directory only. *)
Fixpoint zip_files (root : string) (files : list string) (answers : list bool)
  (entries : list (string * string)) : list bool * list (string * string) :=
  match files with
  | [] => (answers, entries)
  | file_name :: rest =>
      let file_path := OsPath.join root file_name in
      let entries' := entries ++ [(file_name, file_path)] in
      if hd false answers then (tl answers, entries')
      else zip_files root rest (tl answers) entries'
  end.

(** [zip_pdf], lines 284-325. *)
Definition zip_pdf (self : PDFSplitter) (output_directory : list Node)
  (answers : list bool) : Archive :=
  let '(_, entries) :=
    foldl (fun '(answers, entries) '(root, _, files) =>
             zip_files root files answers entries)
      (answers, [])
      (os_walk (output_directory_path self) output_directory) in
  mkArchive (zip_path self) entries.

(** ** Vocabulary of the statements *)

(** The pages of chunk [i] (counted from 0) of a document cut every [k] pages. *)
Definition chunk {Page} (pages : list Page) (k : Z) (i : nat) : list Page :=
  take (Z.to_nat k) (drop (i * Z.to_nat k) pages).

(** [ceil(T / k)] *)
Definition ceil_div (T k : Z) : Z := (T + k - 1) / k.

(** The path of output file number [n] of a splitter. *)
Definition nth_output_path (self : PDFSplitter) (n : Z) : string :=
  output_pdf_path (set_sub_pdf_num n self).

(** The pages of the output files [1.pdf .. n.pdf] of a splitter, read
    back from the file system and put end to end in the order of the file
    names; a path that holds no document adds nothing. *)
Definition output_pages {Page} (st : State Page) (self : PDFSplitter) (n : nat)
  : list Page :=
  flat_map (fun j : nat =>
              match files st !! nth_output_path self (Z.of_nat j + 1) with
              | Some (PdfData doc) => doc
              | _ => []
              end)
    (seq 0 n).

(** How many of [n] chunks a run processes: the loop leaves after the first
    chunk at whose end the flag is set, either because it was set before or
    because the dialog answered that it was cancelled. *)
Fixpoint chunks_done (flag : bool) (answers : list bool) (n : nat) : nat :=
  match n with
  | O => O
  | S n' =>
      if flag || hd false answers then 1%nat
      else S (chunks_done false (tl answers) n')
  end.

(** The percentage of the chunk starting at [start_page], 0 where the
    computation raises. *)
Definition progress_of (k T : Z) (i : nat) : Z :=
  match progress_value (Z.of_nat i * k) k T with Ok v => v | Raise _ => 0 end.

(** The state a chunk leaves once its file is written (lines 76-89). *)
Definition chunk_written {Page} (pages : list Page) (start_page : Z)
  (st : State Page) : State Page :=
  let self := splitter st in
  mkState (set_sub_pdf_num (sub_pdf_num self + 1) self)
    (<[output_pdf_path self :=
         PdfData (take (Z.to_nat (pages_per_pdf self))
                    (drop (Z.to_nat start_page) pages))]> (files st))
    (progress_bar st).

(** The state the receiver of the progress signal leaves (line 92). *)
Definition chunk_reported {Page} (progress : Z) (st : State Page) : State Page :=
  let bar := progress_bar st in
  mkState (if hd false (clicks bar) then cancel_progress (splitter st)
           else splitter st)
    (files st)
    (mkDialog (shown bar ++ [progress]) (tl (clicks bar))).

(** The state at line 72, before the loop. *)
Definition started {Page} (st : State Page) : State Page :=
  mkState (set_sub_pdf_num 1 (splitter st)) (files st) (progress_bar st).

(** The state [d] further chunks leave, starting with chunk [i], when every
    percentage can be computed. *)
Definition after_chunks {Page} (pages : list Page) (i d : nat)
  (st : State Page) : State Page :=
  let self := splitter st in
  let k := pages_per_pdf self in
  let T := Z.of_nat (length pages) in
  let bar := progress_bar st in
  mkState
    (set_cancel (cancel self || existsb id (take d (clicks bar)))
       (set_sub_pdf_num (sub_pdf_num self + Z.of_nat d) self))
    (foldl (fun fs (j : nat) =>
              <[nth_output_path self (sub_pdf_num self + Z.of_nat j) :=
                  PdfData (chunk pages k (i + j))]> fs)
       (files st) (seq 0 d))
    (mkDialog (shown bar ++ map (fun j : nat => progress_of k T (i + j)) (seq 0 d))
       (drop d (clicks bar))).

(** ** Sample runs *)

(** A ten-page document cut every four pages (pages are named by their
    index). *)
Definition ten_pages : State nat :=
  mkState (mkPDFSplitter "/in/doc.pdf" "/out" 4 false 0 false)
    {[ "/in/doc.pdf" := PdfData (seq 0 10) ]} (mkDialog [] []).

(** A hundred pages cut every twenty-nine. *)
Definition hundred_pages : State nat :=
  mkState (mkPDFSplitter "/in/doc.pdf" "/out" 29 false 0 false)
    {[ "/in/doc.pdf" := PdfData (seq 0 100) ]} (mkDialog [] []).

(** Three pages, one per file. *)
Definition three_pages : State nat :=
  mkState (mkPDFSplitter "/in/doc.pdf" "/out" 1 false 0 false)
    {[ "/in/doc.pdf" := PdfData (seq 0 3) ]} (mkDialog [] []).


(** Ten pages cut every four, with the flag left set by an earlier run. *)
Definition ten_pages_stale : State nat :=
  mkState (mkPDFSplitter "/in/doc.pdf" "/out" 4 false 0 true)
    {[ "/in/doc.pdf" := PdfData (seq 0 10) ]} (mkDialog [] []).

(** A chunk size beyond the largest float. *)
Definition huge_chunk_size : Z := 2 ^ 1024.


(** The same with the flag left set by an earlier run. *)
Definition one_page_huge_stale : State nat :=
  mkState (mkPDFSplitter "/in/doc.pdf" "/out" huge_chunk_size false 0 true)
    {[ "/in/doc.pdf" := PdfData [0%nat] ]} (mkDialog [] []).

(** An empty file system, and a splitter pointed at a path it lacks. *)
Definition nothing_there : State nat :=
  mkState (mkPDFSplitter "/in/missing.pdf" "/out" 1 false 0 false)
    ∅ (mkDialog [] []).

(** A chunk size below which line 91 cannot overflow; from about 1.8e308
    pages per chunk on, the float division raises [OverflowError]. *)
Definition chunk_size_limit : Z := 2 ^ 1000.

(** The formula of the specification read in exact arithmetic:
    [floor((startPage + k) / T * 100)]. *)
Definition floor_percent (start_page k T : Z) : Z :=
  (start_page + k) * 100 / T.

(** A computation under which a set flag stays set. *)
Definition keeps_cancel {Page A} (m : M Page A) : Prop :=
  forall st : State Page,
    cancel (splitter st) = true -> cancel (splitter (snd (m st))) = true.

(** A splitter whose input file has two dots in its name, after a run of
    two chunks. *)
Definition report_splitter : PDFSplitter :=
  mkPDFSplitter "/home/u/my.report.pdf" "/home/u/out" 4 false 3 false.

(** The entries [zip_pdf] writes for one triple of [os.walk] when nobody
    cancels. *)
Definition entries_of (item : string * list string * list string)
  : list (string * string) :=
  let '(root, _, files) := item in
  map (fun file_name => (file_name, OsPath.join root file_name)) files.

(** What a run may change: [evolves st st'] says that [st'] has the
    configuration of [st], every file of [st] except possibly files named
    [<output directory>/<number>.pdf], the percentages of [st] followed by
    more, and what is left of the dialog's answers. *)
Definition evolves {Page} (st st' : State Page) : Prop :=
  input_pdf_path (splitter st') = input_pdf_path (splitter st)
  /\ output_directory_path (splitter st') = output_directory_path (splitter st)
  /\ pages_per_pdf (splitter st') = pages_per_pdf (splitter st)
  /\ compress_zip (splitter st') = compress_zip (splitter st)
  /\ (forall p : string, is_Some (files st !! p) -> is_Some (files st' !! p))
  /\ (forall p : string,
        (forall m : Z, p <> nth_output_path (splitter st) m) ->
        files st' !! p = files st !! p)
  /\ (exists more : list Z,
        shown (progress_bar st') = shown (progress_bar st) ++ more)
  /\ (exists asked : nat,
        clicks (progress_bar st') = drop asked (clicks (progress_bar st))).

(** [c not in s] *)
Fixpoint lacks (c : ascii) (s : string) : bool :=
  match s with
  | EmptyString => true
  | String a r => negb (Ascii.eqb a c) && lacks c r
  end.

(** The files of a tree below the directory [parent], in the order of the
    tree: the name of each and the path [os.path.join] gives it. *)
Fixpoint all_entries (parent : string) (n : Node) : list (string * string) :=
  match n with
  | File name => [(name, OsPath.join parent name)]
  | Dir name entries => flat_map (all_entries (OsPath.join parent name)) entries
  end.

(** Every name in the tree is a name a directory entry can have: it holds
    no slash. *)
Fixpoint well_named (n : Node) : bool :=
  match n with
  | File name => lacks "/" name
  | Dir name entries => lacks "/" name && forallb well_named entries
  end.

(** The file names of one triple of [os.walk]. *)
Definition walked_files (item : string * list string * list string) : list string :=
  let '(_, _, files) := item in files.

(** ** The window (app.py, class MainWindow) *)

Inductive MessageBox : Type :=
| Critical (text : string)
| Information (text : string).

Section Window.

Context {Page : Type}.

(** The widgets the slots read and write, the splitter with the files and
    the progress dialog, the directories of the file system, and what the
    window has shown and archived so far. *)
Record MainWindow : Type := mkWindow {
  script_input : string;
  output_directory : string;
  pages_num : Z;
  compres_zip_checkBox : bool;
  world : State Page;
  directories : gset string;
  boxes : list MessageBox;
  archives : list Archive
}.

Definition with_world (st : State Page) (w : MainWindow) : MainWindow :=
  mkWindow (script_input w) (output_directory w) (pages_num w)
    (compres_zip_checkBox w) st (directories w) (boxes w) (archives w).

Definition with_splitter (self : PDFSplitter) (w : MainWindow) : MainWindow :=
  with_world (mkState self (files (world w)) (progress_bar (world w))) w.

(** [QMessageBox.critical] and [QMessageBox.information] *)
Definition show_box (b : MessageBox) (w : MainWindow) : MainWindow :=
  mkWindow (script_input w) (output_directory w) (pages_num w)
    (compres_zip_checkBox w) (world w) (directories w) (boxes w ++ [b])
    (archives w).

(** [os.path.isfile] and [os.path.isdir] *)
Definition isfile (w : MainWindow) (path : string) : bool :=
  bool_decide (is_Some (files (world w) !! path)).

Definition isdir (w : MainWindow) (path : string) : bool :=
  bool_decide (path ∈ directories w).

(** [MainWindow.__init__] with [initUI]: a fresh splitter, empty fields, the
    spin box at its minimum. *)
Definition init_window (fs : gmap string (FileData Page)) (dirs : gset string)
  : MainWindow :=
  mkWindow "" "" 1 false
    (mkState (defaultAttributes (mkPDFSplitter "" "" 0 false 0 false)) fs
       (mkDialog [] []))
    dirs [] [].

(** [openFileDialog], lines 121-138: [file_name] is a pair, which is never
    empty, so the text is always set. *)
Definition openFileDialog (file_name_0 : string) (w : MainWindow) : MainWindow :=
  let w := mkWindow file_name_0 (output_directory w) (pages_num w)
             (compres_zip_checkBox w) (world w) (directories w) (boxes w)
             (archives w) in
  let self := splitter (world w) in
  with_splitter
    (mkPDFSplitter file_name_0 (output_directory_path self) (pages_per_pdf self)
       (compress_zip self) (sub_pdf_num self) (cancel self)) w.

(** [openDirectoryDialog], lines 140-154: the text is set only for a
    directory that was chosen, the splitter's path in any case. *)
Definition openDirectoryDialog (directory_name : string) (w : MainWindow)
  : MainWindow :=
  let w := match directory_name with
           | EmptyString => w
           | _ => mkWindow (script_input w) directory_name (pages_num w)
                    (compres_zip_checkBox w) (world w) (directories w) (boxes w)
                    (archives w)
           end in
  let self := splitter (world w) in
  with_splitter
    (mkPDFSplitter (input_pdf_path self) directory_name (pages_per_pdf self)
       (compress_zip self) (sub_pdf_num self) (cancel self)) w.

(** [ValueChangePages], lines 156-165. *)
Definition ValueChangePages (n : Z) (w : MainWindow) : MainWindow :=
  let self := splitter (world w) in
  with_splitter
    (mkPDFSplitter (input_pdf_path self) (output_directory_path self) n
       (compress_zip self) (sub_pdf_num self) (cancel self)) w.

(** [QSpinBox.setValue] on the box of [initUI], created with minimum 1 and
    Qt's default maximum 99: the value is bound to the range, and
    [valueChanged], which is connected to [ValueChangePages], is emitted
    only when the value changes. *)
Definition spin_to (n : Z) (w : MainWindow) : MainWindow :=
  let n := Z.max 1 (Z.min 99 n) in
  if n =? pages_num w then w
  else ValueChangePages n
         (mkWindow (script_input w) (output_directory w) n
            (compres_zip_checkBox w) (world w) (directories w) (boxes w)
            (archives w)).

(** [clearFields], lines 254-265. *)
Definition clearFields (w : MainWindow) : MainWindow :=
  let w := spin_to 1 (mkWindow "" "" (pages_num w) (compres_zip_checkBox w)
                        (world w) (directories w) (boxes w) (archives w)) in
  let w := mkWindow (script_input w) (output_directory w) (pages_num w) false
             (world w) (directories w) (boxes w) (archives w) in
  with_world (reset (world w)) w.

(** [zip_pdf] as called from [splitPDF]: the archive is created next to
    the output directory, [tree] being what [os.walk] finds under that
    directory. As for the files of [split_pdf], creating it is taken to
    succeed: the model has no permissions and no full disk. What a PDF
    reader makes of the archive afterwards depends on the bytes stored in
    it, which this code does not decide: [archive_data] stands for it. *)
Definition zip_output (tree : list Node) (zip_answers : list bool)
  (archive_data : FileData Page) (w : MainWindow) : MainWindow :=
  let archive := zip_pdf (splitter (world w)) tree zip_answers in
  mkWindow (script_input w) (output_directory w) (pages_num w)
    (compres_zip_checkBox w)
    (mkState (splitter (world w))
       (<[archive_path archive := archive_data]> (files (world w)))
       (progress_bar (world w)))
    (directories w) (boxes w) (archives w ++ [archive]).

(** [splitPDF], lines 167-252. [answers] are those of the progress dialog
    the slot creates, [zip_answers] those of the archive dialog. *)
Definition splitPDF (answers zip_answers : list bool) (tree : list Node)
  (archive_data : FileData Page) (w : MainWindow) : Result unit * MainWindow :=
  match check_pdf (input_pdf_path (splitter (world w))) (world w) with
  | (Raise e, st) => (Raise e, with_world st w)
  | (Ok false, st) =>
      (Ok tt, show_box (Critical "The selected file is not a pdf.") (with_world st w))
  | (Ok true, st) =>
      let w := with_world st w in
      let self := splitter (world w) in
      if isfile w (input_pdf_path self) && isdir w (output_directory_path self) then
        let self := mkPDFSplitter (input_pdf_path self) (output_directory_path self)
                      (pages_per_pdf self) (compres_zip_checkBox w)
                      (sub_pdf_num self) (cancel self) in
        let st := mkState self (files (world w)) (mkDialog [1] answers) in
        match split_pdf st with
        | (Raise e, st) => (Raise e, with_world st w)
        | (Ok _, st) =>
            let w := with_world st w in
            let w := if compres_zip_checkBox w
                     then zip_output tree zip_answers archive_data w else w in
            (Ok tt, show_box (Information "Pdfs have been split successfully!") w)
        end
      else if String.eqb (script_input w) "" then
        (Ok tt, show_box (Critical "No file selected.") w)
      else if String.eqb (output_directory w) "" then
        (Ok tt, show_box (Critical "No output directory selected.") w)
      else if negb (isfile w (input_pdf_path self)) then
        (Ok tt, show_box (Critical "The selected file doesn't exist.") w)
      else if negb (isdir w (output_directory_path self)) then
        (Ok tt, show_box (Critical "The selected output directory doesn't exist") w)
      else
        (Ok tt, show_box (Critical "Unexpected error") w)
  end.


End Window.

Arguments MainWindow : clear implicits.

(** What the user does to the window. *)
Inductive Event {Page : Type} : Type :=
| BrowseFile (file_name_0 : string)
| BrowseDirectory (directory_name : string)
| SpinTo (n : Z)
| TypeInput (text : string)
| TypeOutput (text : string)
| Tick (checked : bool)
| ClickSplit (answers zip_answers : list bool) (tree : list Node)
    (archive_data : FileData Page)
| ClickClear.

Arguments Event : clear implicits.

(** The window an event leaves, whether its slot returned or raised. *)
Definition handle {Page} (ev : Event Page) (w : MainWindow Page) : MainWindow Page :=
  match ev with
  | BrowseFile file_name_0 => openFileDialog file_name_0 w
  | BrowseDirectory directory_name => openDirectoryDialog directory_name w
  | SpinTo n => spin_to n w
  | TypeInput text =>
      mkWindow text (output_directory w) (pages_num w) (compres_zip_checkBox w)
        (world w) (directories w) (boxes w) (archives w)
  | TypeOutput text =>
      mkWindow (script_input w) text (pages_num w) (compres_zip_checkBox w)
        (world w) (directories w) (boxes w) (archives w)
  | Tick checked =>
      mkWindow (script_input w) (output_directory w) (pages_num w) checked
        (world w) (directories w) (boxes w) (archives w)
  | ClickSplit answers zip_answers tree archive_data =>
      snd (splitPDF answers zip_answers tree archive_data w)
  | ClickClear => clearFields w
  end.

(** The windows a session can reach. *)
Inductive reachable {Page} : MainWindow Page -> Prop :=
| reachable_init fs dirs : reachable (init_window fs dirs)
| reachable_step ev w : reachable w -> reachable (handle ev w).

(** ** Sample windows and directories *)

(** Twelve pages cut every four: the chunk size divides the page count. *)
Definition twelve_pages : State nat :=
  mkState (mkPDFSplitter "/in/doc.pdf" "/out" 4 false 0 false)
    {[ "/in/doc.pdf" := PdfData (seq 0 12) ]} (mkDialog [] []).

(** An output directory that already holds a sub-directory. *)
Definition nested_output : list Node :=
  [File "1.pdf"; Dir "old" [File "a.pdf"; File "b.pdf"]; File "2.pdf"].

(** A splitter whose paths have plain names. *)
Definition plain_splitter : PDFSplitter :=
  mkPDFSplitter "/home/u/doc.pdf" "/home/u/out" 4 false 3 false.

(** The window as it opens, on a file system that holds one document. *)
Definition fresh_window : MainWindow nat :=
  init_window {[ "/in/doc.pdf" := PdfData (seq 0 10) ]} {[ "/out" ]}.

(** A session in that window: the user picks the document and the output
    directory and sets the spin box to four pages. *)
Definition ten_pages_window : MainWindow nat :=
  handle (SpinTo 4)
    (handle (BrowseDirectory "/out") (handle (BrowseFile "/in/doc.pdf") fresh_window)).


(** * Proofs *)

(** ** Python's [range] *)

Lemma range_length_unit (a b : Z) :
  Z.to_nat (Py.range_length a b 1) = Z.to_nat (b - a).
Proof.
  unfold Py.range_length. change (0 <? 1) with true.
  cbv iota. destruct (a <? b) eqn:E.
  - rewrite Z.div_1_r. lia.
  - apply Z.ltb_ge in E. lia.
Qed.

Lemma range_unit (a b : Z) :
  Py.range a b 1
  = Ok (map (fun i : nat => a + Z.of_nat i) (seq 0 (Z.to_nat (b - a)))).
Proof.
  unfold Py.range. change (1 =? 0) with false. cbv iota.
  rewrite range_length_unit. f_equal.
  apply map_ext. intros i. lia.
Qed.

Lemma range_length_pos (T k : Z) :
  0 <= T -> 1 <= k -> Py.range_length 0 T k = ceil_div T k.
Proof.
  intros HT Hk. unfold Py.range_length, ceil_div.
  destruct (0 <? k) eqn:E; [|apply Z.ltb_ge in E; lia].
  destruct (0 <? T) eqn:E'.
  - apply Z.ltb_lt in E'.
    replace (T + k - 1) with (T - 0 - 1 + 1 * k) by lia.
    rewrite Z.div_add by lia. reflexivity.
  - apply Z.ltb_ge in E'. assert (T = 0) by lia. subst T.
    symmetry. apply Z.div_small. lia.
Qed.

Lemma range_chunks (T k : Z) :
  0 <= T -> 1 <= k ->
  Py.range 0 T k
  = Ok (map (fun i : nat => Z.of_nat i * k) (seq 0 (Z.to_nat (ceil_div T k)))).
Proof.
  intros HT Hk. unfold Py.range.
  destruct (k =? 0) eqn:E; [apply Z.eqb_eq in E; lia|].
  rewrite range_length_pos by assumption. reflexivity.
Qed.

(** [ceil_div] is the ceiling of the quotient. *)
Lemma ceil_div_spec (T k : Z) :
  0 <= T -> 1 <= k ->
  (ceil_div T k - 1) * k < T <= ceil_div T k * k \/ (T = 0 /\ ceil_div T k = 0).
Proof.
  intros HT Hk. unfold ceil_div.
  destruct (Z.eq_dec T 0) as [->|Hne].
  - right. split; [reflexivity|]. apply Z.div_small. lia.
  - left. pose proof (Z.div_mod (T + k - 1) k ltac:(lia)) as Hdm.
    pose proof (Z.mod_pos_bound (T + k - 1) k ltac:(lia)) as Hb. nia.
Qed.

(** ** Floats: the percentage can be computed *)

Lemma digits2_pos_bounds (p : positive) :
  2 ^ (Zpos (digits2_pos p) - 1) <= Zpos p < 2 ^ Zpos (digits2_pos p).
Proof.
  induction p as [p IH|p IH|]; cbn [digits2_pos].
  - rewrite Pos2Z.inj_succ.
    replace (Z.succ (Zpos (digits2_pos p)) - 1) with (Z.succ (Zpos (digits2_pos p) - 1)) by lia.
    rewrite !Z.pow_succ_r by lia. lia.
  - rewrite Pos2Z.inj_succ.
    replace (Z.succ (Zpos (digits2_pos p)) - 1) with (Z.succ (Zpos (digits2_pos p) - 1)) by lia.
    rewrite !Z.pow_succ_r by lia. lia.
  - cbn. lia.
Qed.

Lemma Zdigits2_le (m n : Z) : 0 <= m < 2 ^ n -> 0 <= n -> Zdigits2 m <= n.
Proof.
  intros [Hm Hlt] Hn. destruct m as [|p|p]; cbn; [lia| |lia].
  pose proof (digits2_pos_bounds p) as [Hlo _].
  destruct (Z_le_gt_dec (Zpos (digits2_pos p)) n) as [|Hgt]; [assumption|].
  exfalso. assert (2 ^ n <= 2 ^ (Zpos (digits2_pos p) - 1)) by (apply Z.pow_le_mono_r; lia).
  lia.
Qed.

Lemma shr_1_m (mrs : shr_record) :
  0 <= shr_m mrs -> shr_m (shr_1 mrs) = shr_m mrs / 2.
Proof.
  destruct mrs as [m r s]. cbn [shr_m]. intros Hm.
  destruct m as [|[p|p|]|p]; cbn [shr_1 shr_m]; try lia; try reflexivity.
  - rewrite Pos2Z.inj_xI. apply Z.div_unique with 1; lia.
  - rewrite Pos2Z.inj_xO. apply Z.div_unique with 0; lia.
Qed.

Lemma iter_shr_1_m (n : positive) : forall mrs : shr_record,
  0 <= shr_m mrs -> shr_m (SpecFloat.iter_pos shr_1 n mrs) = shr_m mrs / 2 ^ Zpos n.
Proof.
  induction n as [n IH|n IH|]; intros mrs Hm; cbn [SpecFloat.iter_pos].
  - assert (H1 : 0 <= shr_m (shr_1 mrs)) by (rewrite shr_1_m by assumption; apply Z.div_pos; lia).
    assert (H2 : 0 <= shr_m (SpecFloat.iter_pos shr_1 n (shr_1 mrs)))
      by (rewrite IH by assumption; apply Z.div_pos; lia).
    rewrite IH, IH, shr_1_m by assumption.
    rewrite !Z.div_div by lia. f_equal.
    replace (Zpos n~1) with (1 + Zpos n + Zpos n) by lia.
    rewrite !Z.pow_add_r by lia. change (2 ^ 1) with 2. ring.
  - assert (H2 : 0 <= shr_m (SpecFloat.iter_pos shr_1 n mrs))
      by (rewrite IH by assumption; apply Z.div_pos; lia).
    rewrite IH, IH by assumption.
    rewrite !Z.div_div by lia. f_equal.
    replace (Zpos n~0) with (Zpos n + Zpos n) by lia.
    rewrite Z.pow_add_r by lia. ring.
  - rewrite shr_1_m by assumption. reflexivity.
Qed.

(** Values below [2 ^ (N - e)] at exponent [e]. *)
Lemma shr_fexp_bound (m e N : Z) (l : location) :
  0 <= m < 2 ^ (N - e) -> e <= N -> emin Py.prec Py.emax <= N ->
  let '(mrs, e') := shr_fexp Py.prec Py.emax m e l in
  0 <= shr_m mrs < 2 ^ (N - e') /\ e <= e' <= N
  /\ e' <= Z.max e (Z.max (N - Py.prec) (emin Py.prec Py.emax)).
Proof.
  intros [Hm Hlt] He Hmin. unfold shr_fexp, shr.
  assert (Hd : Zdigits2 m <= N - e) by (apply Zdigits2_le; lia).
  assert (Hf : fexp Py.prec Py.emax (Zdigits2 m + e) <= Z.max (N - Py.prec) (emin Py.prec Py.emax))
    by (unfold fexp; lia).
  assert (Hm' : shr_m (shr_record_of_loc m l) = m) by (destruct l as [|[]]; reflexivity).
  destruct (fexp Py.prec Py.emax (Zdigits2 m + e) - e) as [|n|n] eqn:En.
  - rewrite Hm'. lia.
  - rewrite iter_shr_1_m by (rewrite Hm'; lia). rewrite Hm'.
    assert (HN : e + Zpos n <= N) by (unfold Py.prec in *; lia).
    repeat split; try lia.
    + apply Z.div_pos; lia.
    + apply Z.div_lt_upper_bound; [lia|].
      rewrite <- Z.pow_add_r by lia.
      replace (Zpos n + (N - (e + Zpos n))) with (N - e) by lia. assumption.
  - rewrite Hm'. lia.
Qed.

Lemma round_nearest_even_bounds (m : Z) (l : location) :
  m <= round_nearest_even m l <= m + 1.
Proof.
  destruct l as [|[]]; cbn; try lia. destruct (Z.even m); lia.
Qed.

Lemma binary_round_aux_bound (s : bool) (m e N : Z) (l : location) :
  0 <= m < 2 ^ (N - e) -> e <= N -> emin Py.prec Py.emax <= N ->
  N + 1 <= Py.emax -> e <= Py.emax - Py.prec ->
  binary_round_aux Py.prec Py.emax s m e l = S754_zero s
  \/ exists m' e',
       binary_round_aux Py.prec Py.emax s m e l = S754_finite s m' e'
       /\ Zpos m' < 2 ^ (N + 1 - e') /\ e' <= N + 1 /\ e' <= Py.emax - Py.prec.
Proof.
  intros Hm He Hmin HN Hemax. unfold binary_round_aux.
  pose proof (shr_fexp_bound m e N l Hm He Hmin) as H1.
  destruct (shr_fexp Py.prec Py.emax m e l) as [mrs1 e1].
  destruct H1 as (Hm1 & He1 & He1').
  pose proof (round_nearest_even_bounds (shr_m mrs1) (loc_of_shr_record mrs1)) as Hr.
  set (m2 := round_nearest_even (shr_m mrs1) (loc_of_shr_record mrs1)) in *.
  assert (Hpow : 2 ^ (N + 1 - e1) = 2 * 2 ^ (N - e1)).
  { replace (N + 1 - e1) with (Z.succ (N - e1)) by lia. apply Z.pow_succ_r. lia. }
  assert (Hm2 : 0 <= m2 < 2 ^ (N + 1 - e1)) by lia.
  pose proof (shr_fexp_bound m2 e1 (N + 1) loc_Exact Hm2 ltac:(lia) ltac:(lia)) as H2.
  destruct (shr_fexp Py.prec Py.emax m2 e1 loc_Exact) as [mrs2 e2].
  destruct H2 as (Hm3 & He2 & He2').
  assert (Hfin : e2 <= Py.emax - Py.prec) by (unfold emin, Py.prec, Py.emax in *; lia).
  destruct (shr_m mrs2) as [|p|p].
  - left. reflexivity.
  - right. exists p, e2. apply Z.leb_le in Hfin. rewrite Hfin.
    apply Z.leb_le in Hfin. repeat split; lia.
  - lia.
Qed.

(** Division of two positive integers (exact operands). *)
Lemma SFdiv_exact_bound (a b : positive) (B : Z) :
  0 <= B -> B + 2 <= Py.emax ->
  Zpos a < 2 ^ B * Zpos b ->
  let q := SFdiv Py.prec Py.emax (S754_finite false a 0) (S754_finite false b 0) in
  q = S754_zero false
  \/ exists m e, q = S754_finite false m e
                 /\ Zpos m < 2 ^ (B + 2 - e) /\ e <= B + 2 /\ e <= Py.emax - Py.prec.
Proof.
  intros HB HBe Hab q. subst q. unfold SFdiv, SFdiv_core_binary.
  cbn [xorb Zdigits2].
  set (d1 := Zpos (digits2_pos a)). set (d2 := Zpos (digits2_pos b)).
  change (0 - 0) with 0. rewrite !Z.add_0_r.
  set (e' := Z.min (fexp Py.prec Py.emax (d1 - d2)) 0).
  set (m' := match 0 - e' with Z.pos _ => Z.shiftl (Zpos a) (0 - e') | 0 => Zpos a | Z.neg _ => 0 end).
  assert (He' : e' <= 0) by (subst e'; lia).
  assert (Hm' : m' = Zpos a * 2 ^ (- e')).
  { subst m'. destruct (0 - e') as [|p|p] eqn:E.
    - replace (- e') with 0 by lia. cbn. lia.
    - rewrite Z.shiftl_mul_pow2 by lia. f_equal. f_equal. lia.
    - lia. }
  pose proof (Z.div_eucl_eq m' (Zpos b) ltac:(lia)) as Hdiv.
  pose proof (Z.mod_pos_bound m' (Zpos b) ltac:(lia)) as Hmod.
  unfold Z.modulo in Hmod.
  destruct (Z.div_eucl m' (Zpos b)) as [qq r].
  assert (Hq : 0 <= qq < 2 ^ (B + 1 - e')).
  { assert (Hpow : 0 < 2 ^ (- e')) by (apply Z.pow_pos_nonneg; lia).
    assert (Hpow2 : 2 ^ (B + 1 - e') = 2 * (2 ^ B * 2 ^ (- e'))).
    { replace (B + 1 - e') with (Z.succ (B + - e')) by lia.
      rewrite Z.pow_succ_r, Z.pow_add_r by lia. reflexivity. }
    assert (Hlt : m' < 2 ^ B * 2 ^ (- e') * Zpos b) by (rewrite Hm'; nia).
    split; nia. }
  destruct (binary_round_aux_bound false qq e' (B + 1)
              (new_location (Zpos b) r) Hq)
    as [H|(m & e & H & Hlt & He1 & He2)];
    try (unfold emin, Py.prec, Py.emax in *; lia).
  - left. exact H.
  - right. exists m, e. replace (B + 2) with (B + 1 + 1) by lia. auto.
Qed.

(** The percentage is computed without error as long as the quotient stays
    far inside the range of a float. *)
Lemma progress_value_ok (start_page k T : Z) :
  0 < start_page + k -> 0 < T -> start_page + k < chunk_size_limit * T ->
  exists v, progress_value start_page k T = Ok v.
Proof.
  intros Ha Hb Hab. unfold progress_value, Py.int_truediv.
  destruct (T =? 0) eqn:E; [apply Z.eqb_eq in E; lia|].
  destruct (start_page + k) as [|a|a]; try lia.
  destruct T as [|b|b]; try lia.
  cbn [Py.exact].
  destruct (SFdiv_exact_bound a b 1000 ltac:(lia) ltac:(unfold Py.emax; lia) Hab)
    as [H|(m & e & H & Hlt & He1 & He2)]; rewrite H.
  - exists 0. reflexivity.
  - unfold Py.float_mul_int.
    change (Py.float_of_int 100) with (S754_finite false 7036874417766400 (-46)).
    cbn [SFmul xorb].
    assert (Hm : 0 <= Zpos (m * 7036874417766400) < 2 ^ (1009 - (e + -46))).
    { split; [lia|]. rewrite Pos2Z.inj_mul.
      replace (1009 - (e + -46)) with (1000 + 2 - e + 53) by lia.
      rewrite Z.pow_add_r by lia.
      assert (7036874417766400 < 2 ^ 53) by reflexivity.
      assert (0 < 2 ^ (1000 + 2 - e)) by (apply Z.pow_pos_nonneg; lia).
      nia. }
    destruct (binary_round_aux_bound false _ _ 1009 loc_Exact Hm)
      as [H'|(m' & e' & H' & _)];
      try (unfold emin, Py.prec, Py.emax in *; lia); rewrite H'.
    + exists 0. reflexivity.
    + cbn [Py.int_of_float]. eexists. reflexivity.
Qed.

Lemma progress_value_no_zero_division (start_page k T : Z) :
  T <> 0 -> progress_value start_page k T <> Raise ZeroDivisionError.
Proof.
  intros HT. unfold progress_value, Py.int_truediv.
  destruct (T =? 0) eqn:E; [apply Z.eqb_eq in E; contradiction|].
  destruct (SFdiv Py.prec Py.emax (Py.exact (start_page + k)) (Py.exact T));
    try discriminate;
    match goal with
    | |- Py.int_of_float ?x <> _ => destruct x; discriminate
    end.
Qed.

(** ** One chunk *)

Section Chunk.

Context {Page : Type}.
Implicit Types (st : State Page) (pages : list Page).

Lemma index_in_range pages (a : Z) (x : Page) :
  0 <= a -> pages !! Z.to_nat a = Some x -> Py.index pages a = Ok x.
Proof.
  intros Ha Hx. unfold Py.index.
  pose proof (lookup_lt_Some _ _ _ Hx) as Hlt.
  destruct (a <? 0) eqn:E; [apply Z.ltb_lt in E; lia|].
  destruct (0 <=? a) eqn:E1; [|apply Z.leb_gt in E1; lia].
  destruct (a <? Z.of_nat (length pages)) eqn:E2; [|apply Z.ltb_ge in E2; lia].
  simpl. rewrite Hx. reflexivity.
Qed.

(** The input is intact as long as it is none of the files written. *)
Lemma input_overwritten_false (self : PDFSplitter) :
  (forall x : Z, 1 <= x < sub_pdf_num self ->
                 input_pdf_path self <> output_pdf_path (set_sub_pdf_num x self)) ->
  input_overwritten self = false.
Proof.
  intros Hne. unfold input_overwritten.
  destruct (existsb _ _) eqn:E; [|reflexivity].
  apply List.existsb_exists in E. destruct E as (n & Hn & Heq).
  apply in_seq in Hn. apply String.eqb_eq in Heq.
  exfalso. apply (Hne (Z.of_nat n + 1)); [lia|exact Heq].
Qed.

Lemma map_M_index pages (n : nat) : forall (a : Z) st,
  input_overwritten (splitter st) = false ->
  0 <= a -> (Z.to_nat a + n <= length pages)%nat ->
  map_M (reader_page pages)
    (map (fun i : nat => a + Z.of_nat i) (seq 0 n)) st
  = (Ok (take n (drop (Z.to_nat a) pages)), st).
Proof.
  induction n as [|n IH]; intros a st Hin Ha Hlen.
  - reflexivity.
  - destruct (lookup_lt_is_Some_2 pages (Z.to_nat a) ltac:(lia)) as [x Hx].
    rewrite (drop_S _ _ _ Hx). cbn [seq map take map_M].
    rewrite <- seq_shift, map_map.
    rewrite (map_ext _ (fun i : nat => (a + 1) + Z.of_nat i)) by (intros; lia).
    unfold bind at 1. unfold reader_page at 1. rewrite Hin.
    replace (a + Z.of_nat 0) with a by lia.
    rewrite (index_in_range _ _ _ Ha Hx).
    unfold bind at 1. rewrite IH by (assumption || lia).
    replace (Z.to_nat (a + 1)) with (S (Z.to_nat a)) by lia.
    reflexivity.
Qed.

Lemma map_M_overwritten pages (n : nat) (a : Z) st :
  input_overwritten (splitter st) = true ->
  map_M (reader_page pages)
    (map (fun i : nat => a + Z.of_nat i) (seq 0 (S n))) st
  = (Raise PdfStreamError, st).
Proof.
  intros Hin. cbn [seq map map_M]. unfold bind at 1.
  unfold reader_page at 1. rewrite Hin. reflexivity.
Qed.

(** What one turn of the loop does, whether or not the percentage can be
    computed. *)
Lemma split_chunk_run pages (start_page : Z) st :
  let k := pages_per_pdf (splitter st) in
  let T := Z.of_nat (length pages) in
  1 <= k -> 0 <= start_page < T ->
  split_chunk pages T start_page st
  = if input_overwritten (splitter st) then (Raise PdfStreamError, st)
    else match progress_value start_page k T with
         | Ok v =>
             let st' := chunk_reported v (chunk_written pages start_page st) in
             (Ok (cancel (splitter st')), st')
         | Raise e => (Raise e, chunk_written pages start_page st)
         end.
Proof.
  intros k T Hk Hstart. unfold split_chunk.
  unfold bind at 1. unfold get_self at 1.
  rewrite range_unit. unfold bind at 1. unfold lift at 1.
  fold k.
  set (n := Z.to_nat (Z.min (start_page + k) T - start_page)).
  unfold bind at 1.
  destruct (input_overwritten (splitter st)) eqn:Hover.
  { assert (Hn : n = S (Nat.pred n)) by (subst n T; lia).
    rewrite Hn, map_M_overwritten by exact Hover. reflexivity. }
  rewrite map_M_index by (exact Hover || (subst n T; lia)).
  assert (Htake : take n (drop (Z.to_nat start_page) pages)
                  = take (Z.to_nat k) (drop (Z.to_nat start_page) pages)).
  { destruct (Z.le_ge_cases (start_page + k) T) as [Hle|Hge].
    - f_equal. subst n. lia.
    - rewrite !take_ge; [reflexivity | |]; rewrite length_drop; subst n T; lia. }
  rewrite Htake.
  unfold bind, get_self, modify_self, write_pdf, lift. cbn.
  fold k. fold T.
  destruct (progress_value start_page k T) as [v|e]; [|reflexivity].
  unfold progress_signal_send, update_progress, bind, setValue, wasCanceled. cbn.
  unfold chunk_reported, chunk_written. cbn.
  destruct (hd false (clicks (progress_bar st))); reflexivity.
Qed.

End Chunk.

(** ** The loop *)

Section Loop.

Context {Page : Type}.
Implicit Types (st : State Page) (pages : list Page).

Lemma foldl_seq_shift {A} (f : A -> nat -> A) (d : nat) : forall (s : nat) (a : A),
  foldl f a (seq (S s) d) = foldl (fun a j => f a (S j)) a (seq s d).
Proof.
  induction d as [|d IH]; intros s a; [reflexivity|].
  cbn [seq foldl]. apply IH.
Qed.

Lemma foldl_pointwise {A B} (f g : A -> B -> A) (l : list B) :
  (forall a x, f a x = g a x) -> forall a, foldl f a l = foldl g a l.
Proof.
  intros Hfg. induction l as [|x l IH]; intros a; [reflexivity|].
  cbn. rewrite Hfg. apply IH.
Qed.

Lemma after_chunks_0 pages (i : nat) st : after_chunks pages i 0 st = st.
Proof.
  destruct st as [[] fs []]. unfold after_chunks, set_cancel, set_sub_pdf_num.
  cbn. rewrite orb_false_r, Z.add_0_r, app_nil_r. reflexivity.
Qed.

Lemma after_chunks_1 pages (i : nat) st :
  1 <= pages_per_pdf (splitter st) ->
  after_chunks pages i 1 st
  = chunk_reported
      (progress_of (pages_per_pdf (splitter st)) (Z.of_nat (length pages)) i)
      (chunk_written pages (Z.of_nat i * pages_per_pdf (splitter st)) st).
Proof.
  intros Hk.
  destruct st as [[inp out k z n c] fs [sh cl]].
  unfold after_chunks, chunk_reported, chunk_written, chunk, nth_output_path,
    cancel_progress, set_cancel, set_sub_pdf_num. cbn in *.
  rewrite Z.add_0_r, Nat.add_0_r.
  replace (Z.to_nat (Z.of_nat i * k)) with (i * Z.to_nat k)%nat by nia.
  destruct cl as [|[] cl]; cbn; rewrite ?orb_false_r, ?orb_true_r; reflexivity.
Qed.

Lemma after_chunks_S pages (i d : nat) st :
  1 <= pages_per_pdf (splitter st) ->
  cancel (splitter st) = false ->
  hd false (clicks (progress_bar st)) = false ->
  after_chunks pages (S i) d (after_chunks pages i 1 st)
  = after_chunks pages i (S d) st.
Proof.
  intros Hk Hc Hhd.
  destruct st as [[inp out k z n c] fs [sh cl]]. cbn in *. subst c.
  unfold after_chunks, nth_output_path, set_cancel, set_sub_pdf_num. cbn.
  f_equal.
  - f_equal; [lia|].
    destruct cl as [|b cl]; cbn in *; [destruct d; reflexivity|].
    subst b. reflexivity.
  - rewrite foldl_seq_shift. rewrite Z.add_0_r, Nat.add_0_r.
    apply foldl_pointwise. intros fs' j.
    unfold output_pdf_path. cbn [output_directory_path sub_pdf_num].
    replace (n + Z.of_nat 1 + Z.of_nat j) with (n + Z.of_nat (S j)) by lia.
    replace (S (i + j)) with (i + S j)%nat by lia. reflexivity.
  - f_equal.
    + rewrite <- app_assoc. f_equal. cbn. rewrite Nat.add_0_r. f_equal.
      rewrite <- seq_shift, map_map. apply map_ext. intros j. f_equal. lia.
    + destruct cl; [destruct d|]; reflexivity.
Qed.

Lemma chunks_loop pages (k : Z) (m : nat) : forall (i : nat) st,
  let T := Z.of_nat (length pages) in
  let d := chunks_done (cancel (splitter st)) (clicks (progress_bar st)) m in
  pages_per_pdf (splitter st) = k ->
  1 <= k ->
  (Z.of_nat (i + m) - 1) * k < T ->
  (forall j : nat, (j < m)%nat ->
                   is_ok (progress_value (Z.of_nat (i + j) * k) k T) = true) ->
  (forall x : Z, 1 <= x < sub_pdf_num (splitter st) + Z.of_nat d - 1 ->
     input_pdf_path (splitter st) <> nth_output_path (splitter st) x) ->
  for_each (map (fun j : nat => Z.of_nat j * k) (seq i m)) (split_chunk pages T) st
  = (Ok tt, after_chunks pages i d st).
Proof.
  cbv zeta.
  induction m as [|m IH]; intros i st Hst Hk HT Hok Hkept.
  - cbn. rewrite after_chunks_0. reflexivity.
  - cbn [seq map for_each chunks_done] in *.
    unfold bind at 1.
    rewrite split_chunk_run by (rewrite ?Hst; nia).
    rewrite input_overwritten_false.
    2:{ intros x Hx. apply Hkept.
        destruct (cancel (splitter st) || hd false (clicks (progress_bar st)));
          lia. }
    pose proof (Hok 0%nat ltac:(lia)) as H0. rewrite Nat.add_0_r in H0.
    pose proof (after_chunks_1 pages i st ltac:(lia)) as H1.
    unfold progress_of in H1. rewrite Hst in *.
    destruct (progress_value (Z.of_nat i * k) k (Z.of_nat (length pages)))
      as [v|e]; [|discriminate].
    cbv zeta. rewrite <- H1.
    assert (Hc : cancel (splitter (after_chunks pages i 1 st))
                 = cancel (splitter st) || hd false (clicks (progress_bar st))).
    { unfold after_chunks. cbn. destruct (clicks (progress_bar st)) as [|b cl]; cbn;
        rewrite ?orb_false_r; reflexivity. }
    rewrite Hc.
    destruct (cancel (splitter st) || hd false (clicks (progress_bar st))) eqn:E.
    + reflexivity.
    + apply orb_false_iff in E as [E1 E2].
      assert (Hcl : clicks (progress_bar (after_chunks pages i 1 st))
                    = tl (clicks (progress_bar st)))
        by (unfold after_chunks; cbn; destruct (clicks (progress_bar st)); reflexivity).
      rewrite (IH (S i) (after_chunks pages i 1 st)); [| exact Hst | assumption | lia | |].
      * rewrite Hc, Hcl.
        rewrite after_chunks_S by (rewrite ?Hst; assumption). reflexivity.
      * intros j Hj. specialize (Hok (S j) ltac:(lia)).
        replace (S i + j)%nat with (i + S j)%nat by lia. exact Hok.
      * intros x Hx. rewrite Hc, Hcl in Hx.
        change (input_pdf_path (splitter (after_chunks pages i 1 st)))
          with (input_pdf_path (splitter st)).
        change (nth_output_path (splitter (after_chunks pages i 1 st)) x)
          with (nth_output_path (splitter st) x).
        apply Hkept.
        change (sub_pdf_num (splitter (after_chunks pages i 1 st)))
          with (sub_pdf_num (splitter st) + Z.of_nat 1) in Hx. lia.
Qed.

End Loop.

(** ** A whole run *)

Section Run.

Context {Page : Type}.
Implicit Types (st : State Page) (pages : list Page).

Lemma progress_is_ok (k T : Z) (j : nat) :
  1 <= k -> Z.of_nat j * k < T -> k <= (chunk_size_limit - 1) * T ->
  is_ok (progress_value (Z.of_nat j * k) k T) = true.
Proof.
  intros Hk Hj Hb.
  destruct (progress_value_ok (Z.of_nat j * k) k T) as [v Hv].
  - nia.
  - nia.
  - set (c := chunk_size_limit) in *. clearbody c. nia.
  - rewrite Hv. reflexivity.
Qed.

Lemma chunk_size_limit_ge : 2 <= chunk_size_limit.
Proof.
  unfold chunk_size_limit. change 2 with (2 ^ 1) at 1.
  apply Z.pow_le_mono_r; lia.
Qed.

Lemma far_from_overflow (k T : Z) :
  1 <= T -> k <= T \/ k < chunk_size_limit -> k <= (chunk_size_limit - 1) * T.
Proof.
  intros HT Hk. pose proof chunk_size_limit_ge as H2.
  set (c := chunk_size_limit) in *. clearbody c. destruct Hk; nia.
Qed.

Lemma split_pdf_prologue st pages :
  files st !! input_pdf_path (splitter st) = Some (PdfData pages) ->
  split_pdf st
  = bind (lift (Py.range 0 (Z.of_nat (length pages)) (pages_per_pdf (splitter st))))
      (fun start_pages =>
         for_each start_pages (split_chunk pages (Z.of_nat (length pages))))
      (started st).
Proof.
  intros Hin. unfold split_pdf.
  unfold bind at 1. unfold get_self at 1.
  unfold bind at 1. unfold open_rb. rewrite Hin.
  unfold bind at 1. unfold read_pdf, lift at 1. cbn [PdfReader].
  unfold bind at 1. unfold lift at 1. cbn [reader_pages].
  unfold bind at 1. unfold modify_self at 1.
  unfold bind at 1. unfold get_self at 1.
  reflexivity.
Qed.

(** The run when every percentage can be computed and no file written
    before the last chunk is read is the input. *)
Lemma split_pdf_run st pages :
  let self := splitter st in
  let k := pages_per_pdf self in
  let T := Z.of_nat (length pages) in
  let d := chunks_done (cancel self) (clicks (progress_bar st))
             (Z.to_nat (ceil_div T k)) in
  files st !! input_pdf_path self = Some (PdfData pages) ->
  1 <= k -> k <= (chunk_size_limit - 1) * T \/ T = 0 ->
  (forall j : nat, (S j < d)%nat ->
                   input_pdf_path self <> nth_output_path self (Z.of_nat j + 1)) ->
  split_pdf st = (Ok tt, after_chunks pages 0 d (started st)).
Proof.
  intros self k T d Hin Hk Hb Hkept. rewrite (split_pdf_prologue _ _ Hin).
  fold self k T. rewrite range_chunks by lia.
  unfold bind, lift.
  pose proof (ceil_div_spec T k ltac:(lia) Hk) as Hc.
  apply (chunks_loop pages k (Z.to_nat (ceil_div T k)) 0 (started st)).
  - reflexivity.
  - assumption.
  - fold T. destruct Hc as [Hc|[-> ->]]; [|cbn; lia].
    rewrite Nat.add_0_l, Z2Nat.id by nia. lia.
  - fold T. intros j Hj. rewrite Nat.add_0_l.
    destruct Hc as [Hc|[H0 H1]]; [|rewrite H1 in Hj; cbn in Hj; lia].
    destruct Hb as [Hb|Hb]; [|nia].
    apply progress_is_ok; [assumption| nia |assumption].
  - intros x Hx.
    change (sub_pdf_num (splitter (started st))) with 1 in Hx.
    change (cancel (splitter (started st))) with (cancel self) in Hx.
    change (clicks (progress_bar (started st))) with (clicks (progress_bar st)) in Hx.
    fold T k d in Hx.
    change (input_pdf_path self <> nth_output_path self x).
    replace x with (Z.of_nat (Z.to_nat (x - 1)) + 1) by lia.
    apply Hkept. lia.
Qed.

(** The run on a document no longer than one chunk, whatever becomes of
    the percentage. *)
Lemma split_pdf_one_chunk st pages :
  let self := splitter st in
  let k := pages_per_pdf self in
  let T := Z.of_nat (length pages) in
  files st !! input_pdf_path self = Some (PdfData pages) ->
  1 <= T <= k ->
  split_pdf st
  = match progress_value 0 k T with
    | Ok v => (Ok tt, chunk_reported v (chunk_written pages 0 (started st)))
    | Raise e => (Raise e, chunk_written pages 0 (started st))
    end.
Proof.
  intros self k T Hin HT. rewrite (split_pdf_prologue _ _ Hin).
  fold self k T. rewrite range_chunks by lia.
  assert (Hn : ceil_div T k = 1).
  { unfold ceil_div. symmetry. apply Z.div_unique with (T - 1); lia. }
  rewrite Hn. unfold bind at 1. unfold lift at 1.
  change (Z.to_nat 1) with 1%nat.
  cbn [seq map for_each]. change (Z.of_nat 0 * k) with 0.
  unfold bind at 1.
  pose proof (split_chunk_run pages 0 (started st)) as Hrun.
  cbv zeta in Hrun. fold T in Hrun.
  rewrite Hrun by (cbn; fold self k; lia).
  change (input_overwritten (splitter (started st))) with false.
  cbn [started splitter pages_per_pdf set_sub_pdf_num]. fold self k T.
  destruct (progress_value 0 k T) as [v|e]; [|reflexivity].
  cbv zeta.
  destruct (cancel (splitter (chunk_reported v (chunk_written pages 0 (started st)))));
    reflexivity.
Qed.


Lemma chunks_done_all (n : nat) : forall answers,
  Forall (eq false) answers -> chunks_done false answers n = n.
Proof.
  induction n as [|n IH]; intros answers Hall; [reflexivity|].
  cbn. destruct Hall as [|b answers Hb Hall]; cbn.
  - rewrite IH by constructor. reflexivity.
  - subst b. rewrite IH by assumption. reflexivity.
Qed.

Lemma chunks_done_flag (n : nat) answers :
  chunks_done true answers (S n) = 1%nat.
Proof. reflexivity. Qed.


End Run.

(** ** Output paths and output files *)

Lemma list_ascii_of_string_app (s t : string) :
  list_ascii_of_string (s +:+ t)
  = list_ascii_of_string s ++ list_ascii_of_string t.
Proof. induction s as [|c s IH]; simpl; [reflexivity|]. rewrite IH. reflexivity. Qed.

Lemma string_app_inv_tail (s1 s2 t : string) : s1 +:+ t = s2 +:+ t -> s1 = s2.
Proof.
  intros H. apply (f_equal list_ascii_of_string) in H.
  rewrite !list_ascii_of_string_app in H. apply app_inv_tail in H.
  apply (f_equal string_of_list_ascii) in H.
  rewrite !string_of_list_ascii_of_string in H. exact H.
Qed.

Lemma nth_output_path_eq (self : PDFSplitter) (n : Z) :
  nth_output_path self n
  = output_directory_path self +:+ "/" +:+ pretty n +:+ ".pdf".
Proof. reflexivity. Qed.

Lemma nth_output_path_inj (self : PDFSplitter) (n m : Z) :
  nth_output_path self n = nth_output_path self m -> n = m.
Proof.
  rewrite !nth_output_path_eq. intros H.
  apply String.app_inj in H. apply String.app_inj in H.
  apply string_app_inv_tail in H. apply (inj pretty) in H. exact H.
Qed.

Lemma output_paths_NoDup (self : PDFSplitter) (n : nat) :
  NoDup (map (fun j : nat => nth_output_path self (Z.of_nat j + 1)) (seq 0 n)).
Proof.
  change (NoDup ((fun j : nat => nth_output_path self (Z.of_nat j + 1)) <$> seq 0 n)).
  apply NoDup_fmap_2_strong; [|apply NoDup_seq].
  intros j j' _ _ H. apply nth_output_path_inj in H. lia.
Qed.

Section Files.

Context {Page : Type}.
Implicit Types (st : State Page) (pages : list Page).

Lemma foldl_insert_hit {V} (f : nat -> string) (g : nat -> V) (d : nat) :
  (forall j j', f j = f j' -> j = j') ->
  forall (m : gmap string V) (j : nat), (j < d)%nat ->
    foldl (fun fs j => <[f j := g j]> fs) m (seq 0 d) !! f j = Some (g j).
Proof.
  intros Hinj. induction d as [|d IH]; intros m j Hj; [lia|].
  rewrite seq_S, foldl_snoc. cbn [Nat.add].
  destruct (decide (j = d)) as [->|Hne].
  - apply lookup_insert_eq.
  - rewrite lookup_insert_ne by (intros H; apply Hinj in H; lia).
    apply IH. lia.
Qed.

Lemma foldl_insert_miss {V} (f : nat -> string) (g : nat -> V) (d : nat) :
  forall (m : gmap string V) (p : string),
    (forall j : nat, (j < d)%nat -> p <> f j) ->
    foldl (fun fs j => <[f j := g j]> fs) m (seq 0 d) !! p = m !! p.
Proof.
  induction d as [|d IH]; intros m p Hp; [reflexivity|].
  rewrite seq_S, foldl_snoc. cbn [Nat.add].
  rewrite lookup_insert_ne by (intros H; apply (Hp d); [lia|congruence]).
  apply IH. intros j Hj. apply Hp. lia.
Qed.

(** The files of a run that started at line 72 and processed [d] chunks. *)
Lemma after_chunks_file pages (d j : nat) st :
  (j < d)%nat ->
  files (after_chunks pages 0 d (started st))
    !! nth_output_path (splitter st) (Z.of_nat j + 1)
  = Some (PdfData (chunk pages (pages_per_pdf (splitter st)) j)).
Proof.
  intros Hj. unfold after_chunks. cbn.
  rewrite (foldl_pointwise _
             (fun fs (j : nat) =>
                <[nth_output_path (splitter st) (Z.of_nat j + 1) :=
                    PdfData (chunk pages (pages_per_pdf (splitter st)) j)]> fs)).
  - apply (foldl_insert_hit
             (fun j : nat => nth_output_path (splitter st) (Z.of_nat j + 1))
             (fun j : nat => PdfData (chunk pages (pages_per_pdf (splitter st)) j)));
      [|assumption].
    intros a b H. apply nth_output_path_inj in H. lia.
  - intros fs x. rewrite Z.add_comm. reflexivity.
Qed.

Lemma after_chunks_other pages (d : nat) st (p : string) :
  (forall j : nat, (j < d)%nat ->
                   p <> nth_output_path (splitter st) (Z.of_nat j + 1)) ->
  files (after_chunks pages 0 d (started st)) !! p = files st !! p.
Proof.
  intros Hp. unfold after_chunks. cbn.
  rewrite (foldl_pointwise _
             (fun fs (j : nat) =>
                <[nth_output_path (splitter st) (Z.of_nat j + 1) :=
                    PdfData (chunk pages (pages_per_pdf (splitter st)) j)]> fs)).
  - apply (foldl_insert_miss
             (fun j : nat => nth_output_path (splitter st) (Z.of_nat j + 1))
             (fun j : nat => PdfData (chunk pages (pages_per_pdf (splitter st)) j))).
    assumption.
  - intros fs x. rewrite Z.add_comm. reflexivity.
Qed.

(** *** Chunks as slices of the document *)

Lemma chunk_length pages (k : Z) (j : nat) :
  length (chunk pages k j)
  = Nat.min (Z.to_nat k) (length pages - j * Z.to_nat k).
Proof. unfold chunk. rewrite length_take, length_drop. reflexivity. Qed.

Lemma chunk_lookup pages (k : Z) (j x : nat) :
  (x < Z.to_nat k)%nat ->
  chunk pages k j !! x = pages !! (j * Z.to_nat k + x)%nat.
Proof.
  intros Hx. unfold chunk. rewrite lookup_take_lt by assumption.
  apply lookup_drop.
Qed.

Lemma chunk_shift pages (k : Z) (j : nat) :
  chunk pages k (S j) = chunk (drop (Z.to_nat k) pages) k j.
Proof.
  unfold chunk. rewrite drop_drop. f_equal.
Qed.

Lemma chunks_concat (k : Z) (n : nat) : forall pages,
  (length pages <= n * Z.to_nat k)%nat ->
  concat (map (chunk pages k) (seq 0 n)) = pages.
Proof.
  induction n as [|n IH]; intros pages Hlen.
  - destruct pages; [reflexivity|]. cbn in Hlen. lia.
  - cbn [seq map concat]. rewrite <- seq_shift, map_map.
    rewrite (map_ext _ (chunk (drop (Z.to_nat k) pages) k))
      by (intros; apply chunk_shift).
    rewrite IH by (rewrite length_drop; lia).
    unfold chunk. cbn [Nat.mul drop]. apply take_drop.
Qed.

End Files.

(** ** The flag is never cleared by a run *)

Section KeepsCancel.

Context {Page : Type}.

Lemma keeps_ret {A} (a : A) : keeps_cancel (Page := Page) (ret a).
Proof. intros st H. exact H. Qed.

Lemma keeps_lift {A} (r : Result A) : keeps_cancel (Page := Page) (lift r).
Proof. intros st H. exact H. Qed.

Lemma keeps_bind {A B} (m : M Page A) (f : A -> M Page B) :
  keeps_cancel m -> (forall a, keeps_cancel (f a)) -> keeps_cancel (bind m f).
Proof.
  intros Hm Hf st H. unfold bind. specialize (Hm st H).
  destruct (m st) as [[a|e] st1]; cbn in *; [apply Hf|]; assumption.
Qed.

Lemma keeps_try_except {A} (m handler : M Page A) (exc : Exception) :
  keeps_cancel m -> keeps_cancel handler -> keeps_cancel (try_except m exc handler).
Proof.
  intros Hm Hh st H. unfold try_except. specialize (Hm st H).
  destruct (m st) as [[a|e] st1]; cbn in *; [assumption|].
  destruct (is_instance e exc); [apply Hh|]; assumption.
Qed.

Lemma keeps_get_self : keeps_cancel (Page := Page) get_self.
Proof. intros st H. exact H. Qed.

Lemma keeps_modify_self (f : PDFSplitter -> PDFSplitter) :
  (forall self, cancel self = true -> cancel (f self) = true) ->
  keeps_cancel (Page := Page) (modify_self f).
Proof. intros Hf st H. cbn. apply Hf. exact H. Qed.

Lemma keeps_open_rb (path : string) : keeps_cancel (Page := Page) (open_rb path).
Proof. intros st H. unfold open_rb. destruct (files st !! path); exact H. Qed.

Lemma keeps_write_pdf (path : string) (pages : list Page) :
  keeps_cancel (write_pdf path pages).
Proof. intros st H. exact H. Qed.

Lemma keeps_reader_page (pages : list Page) (page_num : Z) :
  keeps_cancel (reader_page pages page_num).
Proof.
  intros st H. unfold reader_page.
  destruct (input_overwritten (splitter st)); exact H.
Qed.

Lemma keeps_update_progress (progress : Z) :
  keeps_cancel (Page := Page) (update_progress progress).
Proof.
  intros st H. unfold update_progress, bind, setValue, wasCanceled. cbn.
  destruct (hd false (clicks (progress_bar st))); cbn; [reflexivity|exact H].
Qed.

Lemma keeps_map_M {A B} (f : A -> M Page B) (xs : list A) :
  (forall x, keeps_cancel (f x)) -> keeps_cancel (map_M f xs).
Proof.
  intros Hf. induction xs as [|x xs IH]; cbn [map_M].
  - apply keeps_ret.
  - apply keeps_bind; [apply Hf|]. intros y.
    apply keeps_bind; [exact IH|]. intros ys. apply keeps_ret.
Qed.

Lemma keeps_for_each {A} (body : A -> M Page bool) (xs : list A) :
  (forall x, keeps_cancel (body x)) -> keeps_cancel (for_each xs body).
Proof.
  intros Hb. induction xs as [|x xs IH]; cbn [for_each].
  - apply keeps_ret.
  - apply keeps_bind; [apply Hb|]. intros [|]; [apply keeps_ret|exact IH].
Qed.

Lemma keeps_split_chunk (reader : list Page) (T start_page : Z) :
  keeps_cancel (split_chunk reader T start_page).
Proof.
  unfold split_chunk, progress_signal_send.
  repeat first
    [ apply keeps_update_progress
    | apply keeps_bind; [|intros ?]
    | progress cbv zeta
    | apply keeps_get_self | apply keeps_lift | apply keeps_ret
    | apply keeps_write_pdf | apply keeps_update_progress
    | apply keeps_map_M; intros ?; apply keeps_reader_page
    | apply keeps_modify_self; intros ? H; exact H ].
Qed.

Lemma keeps_split_pdf : keeps_cancel (Page := Page) split_pdf.
Proof.
  unfold split_pdf, read_pdf.
  repeat first
    [ apply keeps_bind; [|intros ?]
    | progress cbv zeta
    | apply keeps_get_self | apply keeps_lift | apply keeps_ret
    | apply keeps_open_rb
    | apply keeps_for_each; intros ?; apply keeps_split_chunk
    | apply keeps_modify_self; intros ? H; exact H ].
Qed.

Lemma keeps_check_pdf (pdf : string) : keeps_cancel (Page := Page) (check_pdf pdf).
Proof.
  unfold check_pdf. apply keeps_try_except; [|apply keeps_ret].
  repeat first
    [ apply keeps_bind; [|intros ?]
    | apply keeps_lift | apply keeps_ret | apply keeps_open_rb ].
Qed.

End KeepsCancel.

(** * The claims *)

Section Claims.

Context {Page : Type}.
Implicit Types (st : State Page) (pages : list Page).

(** The files of a run nobody cancels, for every chunk size. *)
Lemma split_pdf_files_uncancelled st pages :
  let self := splitter st in
  let k := pages_per_pdf self in
  let T := Z.of_nat (length pages) in
  files st !! input_pdf_path self = Some (PdfData pages) ->
  1 <= k ->
  cancel self = false ->
  Forall (eq false) (clicks (progress_bar st)) ->
  (forall j : nat, input_pdf_path self <> nth_output_path self (Z.of_nat j + 1)) ->
  files (snd (split_pdf st))
  = files (after_chunks pages 0 (Z.to_nat (ceil_div T k)) (started st))
  /\ fst (split_pdf st) <> Raise ZeroDivisionError.
Proof.
  intros self k T Hin Hk Hc Hall Hkept.
  assert (HT0 : 0 <= T) by apply Nat2Z.is_nonneg.
  destruct (Z_le_gt_dec k T) as [Hle|Hgt]; [|destruct (Z.eq_dec T 0) as [H0|H0]].
  - rewrite (split_pdf_run st pages Hin Hk)
      by (try (left; apply far_from_overflow; fold self k T; lia);
          intros j _; apply Hkept).
    fold self k T. rewrite Hc, chunks_done_all by assumption.
    split; [reflexivity|discriminate].
  - rewrite (split_pdf_run st pages Hin Hk)
      by (try (right; assumption); intros j _; apply Hkept).
    fold self k T. rewrite Hc, chunks_done_all by assumption.
    split; [reflexivity|discriminate].
  - rewrite (split_pdf_one_chunk st pages Hin) by (unfold T, k, self in *; lia).
    fold self k T.
    assert (Hn : ceil_div T k = 1)
      by (unfold ceil_div; symmetry; apply Z.div_unique with (T - 1); lia).
    rewrite Hn. change (Z.to_nat 1) with 1%nat.
    rewrite after_chunks_1 by exact Hk.
    pose proof (progress_value_no_zero_division 0 k T H0) as Hz.
    destruct (progress_value 0 k T) as [v|e]; split; cbn [fst snd];
      try reflexivity; try discriminate.
    intros [= ->]. apply Hz. reflexivity.
Qed.

(** C1, as the code has it. For a document of [T] pages and a chunk size
    [k >= 1], a run that starts with the flag clear, is not cancelled and
    whose input is none of its output paths writes exactly [ceil(T / k)]
    files: the paths [<output directory>/<n>.pdf] for [n = 1, 2, ...] in
    decimal without padding, pairwise different, file [n] holding chunk
    [n - 1]; no other path changes. The run never raises a division error,
    and on an empty document it returns having written nothing and
    reported nothing. *)
Theorem split_pdf_file_count st pages :
  let self := splitter st in
  let k := pages_per_pdf self in
  let T := Z.of_nat (length pages) in
  let n := Z.to_nat (ceil_div T k) in
  let st' := snd (split_pdf st) in
  files st !! input_pdf_path self = Some (PdfData pages) ->
  1 <= k ->
  cancel self = false ->
  Forall (eq false) (clicks (progress_bar st)) ->
  (forall j : nat, input_pdf_path self <> nth_output_path self (Z.of_nat j + 1)) ->
  (Z.of_nat n - 1) * k < T <= Z.of_nat n * k
  /\ NoDup (map (fun j : nat => nth_output_path self (Z.of_nat j + 1)) (seq 0 n))
  /\ (forall j : nat, (j < n)%nat ->
        files st' !! nth_output_path self (Z.of_nat j + 1)
        = Some (PdfData (chunk pages k j)))
  /\ (forall p : string,
        (forall j : nat, (j < n)%nat ->
                         p <> nth_output_path self (Z.of_nat j + 1)) ->
        files st' !! p = files st !! p)
  /\ (forall m : Z,
        nth_output_path self m
        = output_directory_path self +:+ "/" +:+ pretty m +:+ ".pdf")
  /\ nth_output_path self 1 = output_directory_path self +:+ "/1.pdf"
  /\ nth_output_path self 10 = output_directory_path self +:+ "/10.pdf"
  /\ fst (split_pdf st) <> Raise ZeroDivisionError
  /\ (T = 0 -> split_pdf st = (Ok tt, started st)).
Proof.
  intros self k T n st' Hin Hk Hc Hall Hkept.
  destruct (split_pdf_files_uncancelled st pages Hin Hk Hc Hall Hkept) as [Hfiles Hz].
  fold self k T n in Hfiles. fold st' in Hfiles.
  split; [|split; [|split; [|split; [|split; [|split; [|split; [|split]]]]]]].
  - destruct (ceil_div_spec T k ltac:(lia) Hk) as [H|[H0 H1]]; subst n.
    + rewrite Z2Nat.id by nia. lia.
    + rewrite H1, H0. cbn. lia.
  - apply output_paths_NoDup.
  - intros j Hj. rewrite Hfiles. apply after_chunks_file. exact Hj.
  - intros p Hp. rewrite Hfiles. apply after_chunks_other. exact Hp.
  - intros m. reflexivity.
  - reflexivity.
  - reflexivity.
  - exact Hz.
  - intros H0. rewrite (split_pdf_run st pages Hin Hk)
      by (try (right; exact H0); intros j _; apply Hkept).
    fold self k T. rewrite H0.
    replace (ceil_div 0 k) with 0 by (symmetry; apply Z.div_small; lia).
    cbn [Z.to_nat chunks_done]. rewrite after_chunks_0. reflexivity.
Qed.

(** C2, as the code has it. In a run that starts with the flag clear, is
    not cancelled and whose input is none of its output paths, output file
    [j + 1] holds exactly the source pages [j * k .. min(j * k + k, T) - 1]
    in their order; it has at most [k] pages, and exactly [k] unless it is
    the last one; the pages read back from the files [1.pdf .. n.pdf], in
    the order of the file names, are the document, and the run writes no
    file after [n.pdf]. *)
Theorem split_pdf_chunks_partition st pages :
  let self := splitter st in
  let k := pages_per_pdf self in
  let T := Z.of_nat (length pages) in
  let n := Z.to_nat (ceil_div T k) in
  let st' := snd (split_pdf st) in
  files st !! input_pdf_path self = Some (PdfData pages) ->
  1 <= k ->
  cancel self = false ->
  Forall (eq false) (clicks (progress_bar st)) ->
  (forall j : nat, input_pdf_path self <> nth_output_path self (Z.of_nat j + 1)) ->
  (forall j : nat, (j < n)%nat ->
     let start_page := Z.of_nat j * k in
     let doc := chunk pages k j in
     files st' !! nth_output_path self (Z.of_nat j + 1) = Some (PdfData doc)
     /\ Z.of_nat (length doc) = Z.min (start_page + k) T - start_page
     /\ (forall x : nat, (x < length doc)%nat ->
           doc !! x = pages !! (Z.to_nat start_page + x)%nat)
     /\ Z.of_nat (length doc) <= k
     /\ ((S j < n)%nat -> Z.of_nat (length doc) = k))
  /\ output_pages st' self n = pages
  /\ (forall j : nat, (n <= j)%nat ->
        files st' !! nth_output_path self (Z.of_nat j + 1)
        = files st !! nth_output_path self (Z.of_nat j + 1)).
Proof.
  intros self k T n st' Hin Hk Hc Hall Hkept.
  destruct (split_pdf_files_uncancelled st pages Hin Hk Hc Hall Hkept) as [Hfiles _].
  fold self k T n in Hfiles. fold st' in Hfiles.
  assert (Hceil : (Z.of_nat n - 1) * k < T <= Z.of_nat n * k).
  { destruct (ceil_div_spec T k ltac:(lia) Hk) as [H|[H0 H1]]; subst n.
    - rewrite Z2Nat.id by nia. lia.
    - rewrite H1, H0. cbn. lia. }
  split; [|split].
  - intros j Hj start_page doc.
    assert (Hlen : Z.of_nat (length doc) = Z.min (start_page + k) T - start_page).
    { subst doc start_page. rewrite chunk_length. subst T. nia. }
    split; [|split; [|split; [|split]]].
    + rewrite Hfiles. apply after_chunks_file. exact Hj.
    + exact Hlen.
    + intros x Hx. subst doc start_page. rewrite chunk_lookup by lia.
      f_equal. nia.
    + lia.
    + intros HS. rewrite Hlen. subst start_page. nia.
  - unfold output_pages. rewrite flat_map_concat_map.
    rewrite (map_ext_in _ (chunk pages k)).
    + apply chunks_concat. subst T. nia.
    + intros j Hj. apply in_seq in Hj.
      rewrite Hfiles. unfold self. rewrite after_chunks_file by lia.
      reflexivity.
  - intros j Hj. rewrite Hfiles. apply after_chunks_other.
    intros j' Hj' Heq. apply nth_output_path_inj in Heq. lia.
Qed.

(** The run when the percentages are far from overflowing and no file
    written before the last chunk is read is the input. *)
Lemma split_pdf_bounded_run st pages :
  let self := splitter st in
  let k := pages_per_pdf self in
  let T := Z.of_nat (length pages) in
  let d := chunks_done (cancel self) (clicks (progress_bar st))
             (Z.to_nat (ceil_div T k)) in
  files st !! input_pdf_path self = Some (PdfData pages) ->
  1 <= k < chunk_size_limit ->
  (forall j : nat, (S j < d)%nat ->
                   input_pdf_path self <> nth_output_path self (Z.of_nat j + 1)) ->
  split_pdf st = (Ok tt, after_chunks pages 0 d (started st)).
Proof.
  intros self k T d Hin [Hk1 Hk2] Hkept.
  apply split_pdf_run; [assumption|exact Hk1| |exact Hkept].
  fold self k T. destruct (Z.eq_dec T 0) as [H0|H0]; [right; assumption|left].
  apply far_from_overflow; [unfold T in *; lia | right; exact Hk2].
Qed.

Lemma progress_of_ok (k T : Z) (j : nat) :
  1 <= k < chunk_size_limit -> Z.of_nat j * k < T ->
  progress_value (Z.of_nat j * k) k T = Ok (progress_of k T j).
Proof.
  intros [Hk1 Hk2] Hj. unfold progress_of.
  pose proof (progress_is_ok k T j Hk1 Hj
                ltac:(apply far_from_overflow; [nia | right; exact Hk2])) as Hok.
  destruct (progress_value (Z.of_nat j * k) k T); [reflexivity|discriminate].
Qed.

(** C3, as the code has it. In a run with a chunk size below
    [chunk_size_limit] that starts with the flag clear, is not cancelled
    and whose input is none of its output paths, every chunk emits exactly
    one progress event, in order; its value is
    [int((start_page + k) / T * 100)] computed in binary64: the quotient
    rounded to the nearest float, the product by 100 rounded again, the
    result truncated. The value may exceed 100 on the last chunk: ten
    pages cut every four report 40, 80, 120. *)
Theorem split_pdf_progress_events st pages :
  let self := splitter st in
  let k := pages_per_pdf self in
  let T := Z.of_nat (length pages) in
  let n := Z.to_nat (ceil_div T k) in
  let st' := snd (split_pdf st) in
  files st !! input_pdf_path self = Some (PdfData pages) ->
  1 <= k < chunk_size_limit ->
  cancel self = false ->
  Forall (eq false) (clicks (progress_bar st)) ->
  (forall j : nat, input_pdf_path self <> nth_output_path self (Z.of_nat j + 1)) ->
  (exists events : list Z,
      shown (progress_bar st') = shown (progress_bar st) ++ events
      /\ length events = n
      /\ forall j : nat, (j < n)%nat ->
           exists v : Z,
             events !! j = Some v
             /\ progress_value (Z.of_nat j * k) k T = Ok v
             /\ Py.int_truediv (Z.of_nat j * k + k) T
                = Ok (SFdiv Py.prec Py.emax (Py.exact (Z.of_nat j * k + k))
                        (Py.exact T))
             /\ Py.int_of_float
                  (SFmul Py.prec Py.emax
                     (SFdiv Py.prec Py.emax (Py.exact (Z.of_nat j * k + k))
                        (Py.exact T))
                     (Py.float_of_int 100))
                = Ok v)
  /\ shown (progress_bar (snd (split_pdf ten_pages))) = [40; 80; 120].
Proof.
  intros self k T n st' Hin Hk Hc Hall Hkept. split; [|vm_compute; reflexivity].
  exists (map (progress_of k T) (seq 0 n)).
  assert (Hrun := split_pdf_bounded_run st pages Hin Hk ltac:(intros j _; apply Hkept)).
  cbv zeta in Hrun. fold self k T in Hrun.
  rewrite Hc, chunks_done_all in Hrun by assumption. fold n in Hrun.
  assert (Hceil : (Z.of_nat n - 1) * k < T).
  { destruct (ceil_div_spec T k ltac:(apply Nat2Z.is_nonneg) ltac:(lia))
      as [H|[H0 H1]]; subst n.
    - rewrite Z2Nat.id by nia. lia.
    - rewrite H1, H0. cbn. lia. }
  split; [|split].
  - subst st'. rewrite Hrun. reflexivity.
  - rewrite length_map, length_seq. reflexivity.
  - intros j Hj. exists (progress_of k T j).
    assert (Hv := progress_of_ok k T j Hk ltac:(nia)).
    split; [|split; [exact Hv|]].
    + change (map (progress_of k T) (seq 0 n))
        with (progress_of k T <$> seq 0 n).
      rewrite list_lookup_fmap, lookup_seq_lt by assumption. reflexivity.
    + unfold progress_value in Hv.
      unfold Py.int_truediv in *.
      destruct (T =? 0); [discriminate|].
      destruct (SFdiv Py.prec Py.emax (Py.exact (Z.of_nat j * k + k)) (Py.exact T));
        try discriminate; split; try reflexivity; exact Hv.
Qed.


(** The run that starts with the flag set processes one chunk. *)
Lemma split_pdf_flag_set_run st pages :
  let self := splitter st in
  let k := pages_per_pdf self in
  let T := Z.of_nat (length pages) in
  files st !! input_pdf_path self = Some (PdfData pages) ->
  1 <= k < chunk_size_limit ->
  1 <= T ->
  cancel self = true ->
  split_pdf st = (Ok tt, after_chunks pages 0 1 (started st)).
Proof.
  intros self k T Hin Hk HT Hc.
  assert (Hn : exists n', Z.to_nat (ceil_div T k) = S n').
  { destruct (ceil_div_spec T k ltac:(lia) ltac:(lia)) as [H|[H0 H1]]; [|lia].
    exists (Z.to_nat (ceil_div T k - 1)). nia. }
  destruct Hn as [n' Hn].
  assert (Hrun := split_pdf_bounded_run st pages Hin Hk).
  cbv zeta in Hrun. fold self k T in Hrun.
  rewrite Hn, Hc, chunks_done_flag in Hrun.
  apply Hrun. intros j Hj. lia.
Qed.

(** C9, as the code has it. A run does not clear the flag: started with
    the flag set on a document of at least one page, with a chunk size
    below [chunk_size_limit], it writes the first chunk, reports one
    percentage and returns, the flag still set. Of all that the shell does
    to a splitter only the reset clears the flag. *)
Theorem split_pdf_stale_cancel st pages :
  let self := splitter st in
  let k := pages_per_pdf self in
  let T := Z.of_nat (length pages) in
  let st' := snd (split_pdf st) in
  files st !! input_pdf_path self = Some (PdfData pages) ->
  1 <= k < chunk_size_limit ->
  1 <= T ->
  cancel self = true ->
  fst (split_pdf st) = Ok tt
  /\ files st'
     = <[nth_output_path self 1 := PdfData (chunk pages k 0)]> (files st)
  /\ shown (progress_bar st') = shown (progress_bar st) ++ [progress_of k T 0]
  /\ progress_value 0 k T = Ok (progress_of k T 0)
  /\ sub_pdf_num (splitter st') = 2
  /\ cancel (splitter st') = true
  /\ (forall (op : Op) (st0 : State Page),
        op <> ClearFields -> cancel (splitter st0) = true ->
        cancel (splitter (run_op op st0)) = true)
  /\ (forall st0 : State Page, cancel (splitter (run_op ClearFields st0)) = false).
Proof.
  intros self k T st' Hin Hk HT Hc.
  assert (Hrun := split_pdf_flag_set_run st pages Hin Hk HT Hc).
  subst st'. rewrite Hrun. cbn [fst snd].
  split; [reflexivity|]. split; [reflexivity|]. split; [reflexivity|].
  split; [apply (progress_of_ok k T 0 Hk); lia|].
  split; [reflexivity|].
  split; [unfold after_chunks; cbn; unfold self in Hc; rewrite Hc; reflexivity|].
  split.
  - intros op st0 Hop H0. destruct op; cbn; try assumption.
    + apply keeps_check_pdf. exact H0.
    + apply keeps_split_pdf. exact H0.
    + reflexivity.
    + contradiction.
  - intros st0. reflexivity.
Qed.

(** C6. Whatever was done to the splitter before, after a reset every
    field has its default. *)
Theorem reset_restores_defaults (ops : list Op) st :
  let self := splitter (reset (run_ops ops st)) in
  input_pdf_path self = ""
  /\ output_directory_path self = ""
  /\ pages_per_pdf self = 1
  /\ compress_zip self = false
  /\ sub_pdf_num self = 0
  /\ cancel self = false.
Proof. cbn. repeat split. Qed.

(** The counter after a run: one more than the number of chunks processed. *)
Lemma split_pdf_counter st pages :
  let self := splitter st in
  let k := pages_per_pdf self in
  let T := Z.of_nat (length pages) in
  files st !! input_pdf_path self = Some (PdfData pages) ->
  1 <= k < chunk_size_limit ->
  (forall j : nat, input_pdf_path self <> nth_output_path self (Z.of_nat j + 1)) ->
  sub_pdf_num (splitter (snd (split_pdf st)))
  = 1 + Z.of_nat (chunks_done (cancel self) (clicks (progress_bar st))
                    (Z.to_nat (ceil_div T k))).
Proof.
  intros self k T Hin Hk Hkept.
  rewrite (split_pdf_bounded_run st pages Hin Hk) by (intros j _; apply Hkept).
  reflexivity.
Qed.

End Claims.

Lemma split_pdf_file_count_witness :
  (files ten_pages !! input_pdf_path (splitter ten_pages) = Some (PdfData (seq 0 10))
   /\ 1 <= pages_per_pdf (splitter ten_pages)
   /\ cancel (splitter ten_pages) = false
   /\ Forall (eq false) (clicks (progress_bar ten_pages))
   /\ (forall j : nat,
         input_pdf_path (splitter ten_pages)
         <> nth_output_path (splitter ten_pages) (Z.of_nat j + 1)))
  /\ NoDup (map (fun j : nat => nth_output_path (splitter ten_pages) (Z.of_nat j + 1))
              (seq 0 3)).
Proof.
  assert (H1 : files ten_pages !! input_pdf_path (splitter ten_pages)
               = Some (PdfData (seq 0 10))) by reflexivity.
  assert (H2 : 1 <= pages_per_pdf (splitter ten_pages)) by (simpl; lia).
  assert (H3 : cancel (splitter ten_pages) = false) by reflexivity.
  assert (H4 : Forall (eq false) (clicks (progress_bar ten_pages))) by constructor.
  assert (H5 : forall j : nat,
             input_pdf_path (splitter ten_pages)
             <> nth_output_path (splitter ten_pages) (Z.of_nat j + 1))
    by (intros j; simpl; discriminate).
  split; [auto 10|].
  exact (proj1 (proj2 (split_pdf_file_count ten_pages (seq 0 10) H1 H2 H3 H4 H5))).
Defined.

(** The claim C1 as stated fails: started with the flag left set by an
    earlier run, ten pages cut every four give one file where
    [ceil(10 / 4)] is three. *)
Lemma split_pdf_stale_flag_one_file :
  let st' := snd (split_pdf ten_pages_stale) in
  Z.to_nat (ceil_div 10 4) = 3%nat
  /\ fst (split_pdf ten_pages_stale) = Ok tt
  /\ files st' !! "/out/1.pdf" = Some (PdfData (seq 0 4))
  /\ files st' !! "/out/2.pdf" = None
  /\ files st' !! "/out/3.pdf" = None.
Proof. vm_compute. repeat split. Qed.

Lemma split_pdf_chunks_partition_witness :
  (files ten_pages !! input_pdf_path (splitter ten_pages) = Some (PdfData (seq 0 10))
   /\ 1 <= pages_per_pdf (splitter ten_pages)
   /\ cancel (splitter ten_pages) = false
   /\ Forall (eq false) (clicks (progress_bar ten_pages))
   /\ (forall j : nat,
         input_pdf_path (splitter ten_pages)
         <> nth_output_path (splitter ten_pages) (Z.of_nat j + 1)))
  /\ output_pages (snd (split_pdf ten_pages)) (splitter ten_pages) 3 = seq 0 10.
Proof.
  assert (H1 : files ten_pages !! input_pdf_path (splitter ten_pages)
               = Some (PdfData (seq 0 10))) by reflexivity.
  assert (H2 : 1 <= pages_per_pdf (splitter ten_pages)) by (simpl; lia).
  assert (H3 : cancel (splitter ten_pages) = false) by reflexivity.
  assert (H4 : Forall (eq false) (clicks (progress_bar ten_pages))) by constructor.
  assert (H5 : forall j : nat,
             input_pdf_path (splitter ten_pages)
             <> nth_output_path (splitter ten_pages) (Z.of_nat j + 1))
    by (intros j; simpl; discriminate).
  split; [auto 10|].
  exact (proj1 (proj2 (split_pdf_chunks_partition ten_pages (seq 0 10)
                         H1 H2 H3 H4 H5))).
Defined.

(** The claim C2 as stated fails: started with the flag left set by an
    earlier run, the pages of the output files of ten pages cut every four
    are pages 0 to 3 only; chunks 1 and 2 are in no file. *)
Lemma split_pdf_stale_flag_not_whole_document :
  let st' := snd (split_pdf ten_pages_stale) in
  output_pages st' (splitter ten_pages_stale) 3 = seq 0 4
  /\ output_pages st' (splitter ten_pages_stale) 3 <> seq 0 10
  /\ files st' !! nth_output_path (splitter ten_pages_stale) 2 = None
  /\ files st' !! nth_output_path (splitter ten_pages_stale) 3 = None.
Proof.
  vm_compute. split; [reflexivity|]. split; [discriminate|].
  split; reflexivity.
Qed.

(** The claim C3 as stated fails: a hundred pages cut every twenty-nine
    report 28, 57, 87, 115, where the exact floors are 29, 58, 87, 116. *)
Lemma split_pdf_progress_not_floor :
  shown (progress_bar (snd (split_pdf hundred_pages))) = [28; 57; 87; 115]
  /\ shown (progress_bar (snd (split_pdf hundred_pages)))
     <> map (fun start_page => floor_percent start_page 29 100) [0; 29; 58; 87].
Proof. split; [vm_compute; reflexivity | vm_compute; discriminate]. Qed.

Lemma split_pdf_progress_events_witness :
  (files ten_pages !! input_pdf_path (splitter ten_pages) = Some (PdfData (seq 0 10))
   /\ 1 <= pages_per_pdf (splitter ten_pages) < chunk_size_limit
   /\ cancel (splitter ten_pages) = false
   /\ Forall (eq false) (clicks (progress_bar ten_pages))
   /\ (forall j : nat,
         input_pdf_path (splitter ten_pages)
         <> nth_output_path (splitter ten_pages) (Z.of_nat j + 1)))
  /\ shown (progress_bar (snd (split_pdf ten_pages))) = [40; 80; 120].
Proof.
  assert (H1 : files ten_pages !! input_pdf_path (splitter ten_pages)
               = Some (PdfData (seq 0 10))) by reflexivity.
  assert (H2 : 1 <= pages_per_pdf (splitter ten_pages) < chunk_size_limit)
    by (simpl; split; [lia | reflexivity]).
  assert (H3 : cancel (splitter ten_pages) = false) by reflexivity.
  assert (H4 : Forall (eq false) (clicks (progress_bar ten_pages))) by constructor.
  assert (H5 : forall j : nat,
             input_pdf_path (splitter ten_pages)
             <> nth_output_path (splitter ten_pages) (Z.of_nat j + 1))
    by (intros j; simpl; discriminate).
  split; [auto 10|].
  exact (proj2 (split_pdf_progress_events ten_pages (seq 0 10) H1 H2 H3 H4 H5)).
Defined.



Lemma split_pdf_stale_cancel_witness :
  (files ten_pages_stale !! input_pdf_path (splitter ten_pages_stale)
   = Some (PdfData (seq 0 10))
   /\ 1 <= pages_per_pdf (splitter ten_pages_stale) < chunk_size_limit
   /\ 1 <= Z.of_nat (length (seq 0 10))
   /\ cancel (splitter ten_pages_stale) = true)
  /\ sub_pdf_num (splitter (snd (split_pdf ten_pages_stale))) = 2.
Proof.
  assert (H1 : files ten_pages_stale !! input_pdf_path (splitter ten_pages_stale)
               = Some (PdfData (seq 0 10))) by reflexivity.
  assert (H2 : 1 <= pages_per_pdf (splitter ten_pages_stale) < chunk_size_limit)
    by (simpl; split; [lia | reflexivity]).
  assert (H3 : 1 <= Z.of_nat (length (seq 0 10))) by (simpl; lia).
  assert (H4 : cancel (splitter ten_pages_stale) = true) by reflexivity.
  split; [auto|].
  exact (proj1 (proj2 (proj2 (proj2 (proj2
           (split_pdf_stale_cancel ten_pages_stale (seq 0 10) H1 H2 H3 H4)))))).
Defined.

(** The claim C9 as stated fails: it does not hold regardless of the chunk
    size. With the flag set and a chunk size of [2^1024] the run writes the
    first file, sends no progress event and raises. *)
Lemma split_pdf_stale_overflow :
  let st' := snd (split_pdf one_page_huge_stale) in
  cancel (splitter one_page_huge_stale) = true
  /\ fst (split_pdf one_page_huge_stale) = Raise OverflowError
  /\ files st' !! "/out/1.pdf" = Some (PdfData [0%nat])
  /\ shown (progress_bar st') = [].
Proof. vm_compute. repeat split. Qed.

(** C5 fails on the code. On a path that names no file [check_pdf] raises
    [FileNotFoundError] where the claim says it never raises; its caller
    [splitPDF] goes on to test for a missing file after the call, so a
    click on "Split PDF" in a fresh window raises before the message "No
    file selected." can be shown. *)
Theorem check_pdf_raises_on_missing_file :
  fst (check_pdf "/in/missing.pdf" nothing_there) = Raise FileNotFoundError
  /\ ~ (exists b : bool, fst (check_pdf "/in/missing.pdf" nothing_there) = Ok b)
  /\ input_pdf_path (splitter (world fresh_window)) = ""
  /\ splitPDF [] [] [] NonPdfData fresh_window = (Raise FileNotFoundError, fresh_window).
Proof.
  split; [reflexivity|]. split; [intros [b Hb]; discriminate Hb|].
  split; reflexivity.
Qed.

(** C7 fails on the code. After three pages were written to three files
    the counter is 4: it is set to 1, not 0, when the run starts, and so
    stays one ahead of the number of files written. *)
Theorem split_pdf_counter_one_ahead :
  let st' := snd (split_pdf three_pages) in
  fst (split_pdf three_pages) = Ok tt
  /\ files st'
     = <["/out/3.pdf" := PdfData [2%nat]]>
         (<["/out/2.pdf" := PdfData [1%nat]]>
            (<["/out/1.pdf" := PdfData [0%nat]]> (files three_pages)))
  /\ sub_pdf_num (splitter st') = 4
  /\ sub_pdf_num (splitter (started three_pages)) = 1.
Proof. repeat split. Qed.

(** C10. [cancel_progress] sets the flag, doing it again changes nothing,
    and no other field is touched. *)
Theorem cancel_progress_sets_only_flag (self : PDFSplitter) (n : nat) :
  cancel (cancel_progress self) = true
  /\ cancel_progress (cancel_progress self) = cancel_progress self
  /\ Nat.iter (S n) cancel_progress self = cancel_progress self
  /\ input_pdf_path (cancel_progress self) = input_pdf_path self
  /\ output_directory_path (cancel_progress self) = output_directory_path self
  /\ pages_per_pdf (cancel_progress self) = pages_per_pdf self
  /\ compress_zip (cancel_progress self) = compress_zip self
  /\ sub_pdf_num (cancel_progress self) = sub_pdf_num self.
Proof.
  repeat split.
  induction n as [|n IH]; [reflexivity|].
  change (Nat.iter (S (S n)) cancel_progress self)
    with (cancel_progress (Nat.iter (S n) cancel_progress self)).
  rewrite IH. reflexivity.
Qed.

(** ** The archive *)

Lemma zip_files_uncancelled (root : string) (files : list string) :
  forall (answers : list bool) (entries : list (string * string)),
    Forall (eq false) answers ->
    zip_files root files answers entries
    = (drop (length files) answers,
       entries ++ map (fun file_name => (file_name, OsPath.join root file_name)) files).
Proof.
  induction files as [|f files IH]; intros answers entries Hall.
  - cbn. rewrite app_nil_r. reflexivity.
  - cbn [zip_files]. destruct Hall as [|b answers Hb Hall].
    + cbn [hd tl]. rewrite IH by constructor. cbn. rewrite <- app_assoc.
      destruct (length files); reflexivity.
    + subst b. cbn [hd tl]. rewrite IH by assumption. cbn.
      rewrite <- app_assoc. reflexivity.
Qed.

(** An archive nobody cancels holds every file [os.walk] finds under the
    output directory, each under its bare name. *)
Lemma zip_pdf_entries_uncancelled (self : PDFSplitter) (output_directory : list Node)
  (answers : list bool) :
  Forall (eq false) answers ->
  archive_entries (zip_pdf self output_directory answers)
  = flat_map entries_of (os_walk (output_directory_path self) output_directory).
Proof.
  intros Hall. unfold zip_pdf.
  assert (Hgen : forall items answers entries,
             Forall (eq false) answers ->
             exists answers',
               foldl (fun '(answers, entries) '(root, _, files) =>
                        zip_files root files answers entries)
                 (answers, entries) items
               = (answers', entries ++ flat_map entries_of items)).
  { clear. induction items as [|[[root dirs] files] items IH];
      intros answers entries Hall.
    - exists answers. cbn. rewrite app_nil_r. reflexivity.
    - cbn [foldl]. rewrite zip_files_uncancelled by assumption.
      destruct (IH (drop (length files) answers)
                  (entries ++ map (fun f => (f, OsPath.join root f)) files))
        as [answers' Heq]; [apply Forall_drop; assumption|].
      exists answers'. rewrite Heq. cbn [flat_map entries_of].
      rewrite <- app_assoc. reflexivity. }
  destruct (Hgen (os_walk (output_directory_path self) output_directory) answers []
              Hall) as [answers' Heq].
  rewrite Heq. reflexivity.
Qed.

(** C8 fails on the code. For an input file [my.report.pdf] the archive is
    named [my.zip], not [my.report.zip]: the name is cut at the first dot of
    the base name, not at the extension. The archive is in the parent of the
    output directory and holds [1.pdf] and [2.pdf] under their bare names. *)
Theorem zip_pdf_name_cut_at_first_dot :
  let archive := zip_pdf report_splitter [File "1.pdf"; File "2.pdf"] [] in
  archive_path archive = "/home/u/my.zip"
  /\ archive_path archive <> "/home/u/my.report.zip"
  /\ archive_entries archive
     = [("1.pdf", "/home/u/out/1.pdf"); ("2.pdf", "/home/u/out/2.pdf")].
Proof. repeat split. discriminate. Qed.

(** * Further properties of the code *)

(** ** Floats: what the percentage can raise *)

Lemma shr_fexp_nonneg (m e : Z) (l : location) :
  0 <= m -> 0 <= shr_m (fst (shr_fexp Py.prec Py.emax m e l)).
Proof.
  intros Hm. unfold shr_fexp, shr.
  assert (Hm' : shr_m (shr_record_of_loc m l) = m) by (destruct l as [|[]]; reflexivity).
  destruct (fexp Py.prec Py.emax (Zdigits2 m + e) - e) as [|n|n]; cbn [fst].
  - rewrite Hm'. exact Hm.
  - rewrite iter_shr_1_m by (rewrite Hm'; exact Hm). rewrite Hm'.
    apply Z.div_pos; lia.
  - rewrite Hm'. exact Hm.
Qed.

Lemma binary_round_aux_not_nan (s : bool) (m e : Z) (l : location) :
  0 <= m -> binary_round_aux Py.prec Py.emax s m e l <> S754_nan.
Proof.
  intros Hm. unfold binary_round_aux.
  pose proof (shr_fexp_nonneg m e l Hm) as H1.
  destruct (shr_fexp Py.prec Py.emax m e l) as [mrs1 e1]. cbn [fst] in H1.
  pose proof (round_nearest_even_bounds (shr_m mrs1) (loc_of_shr_record mrs1)) as Hr.
  set (m2 := round_nearest_even (shr_m mrs1) (loc_of_shr_record mrs1)) in *.
  pose proof (shr_fexp_nonneg m2 e1 loc_Exact ltac:(lia)) as H2.
  destruct (shr_fexp Py.prec Py.emax m2 e1 loc_Exact) as [mrs2 e2]. cbn [fst] in H2.
  destruct (shr_m mrs2) as [|p|p]; [discriminate| |lia].
  destruct (e2 <=? Py.emax - Py.prec); discriminate.
Qed.

Lemma SFdiv_exact_not_nan (a b : positive) :
  SFdiv Py.prec Py.emax (S754_finite false a 0) (S754_finite false b 0) <> S754_nan.
Proof.
  unfold SFdiv, SFdiv_core_binary.
  set (m' := match _ - _ - _ with Z.pos _ => _ | 0 => _ | Z.neg _ => _ end).
  assert (Hm' : 0 <= m').
  { subst m'. destruct (_ - _ - _); try lia. apply Z.shiftl_nonneg. lia. }
  pose proof (Z.div_eucl_eq m' (Zpos b) ltac:(lia)) as Hdiv.
  pose proof (Z.mod_pos_bound m' (Zpos b) ltac:(lia)) as Hmod.
  unfold Z.modulo in Hmod.
  destruct (Z.div_eucl m' (Zpos b)) as [q r].
  apply binary_round_aux_not_nan. nia.
Qed.

(** X4. The percentage of lines 91-92, for a positive page count and a
    positive [start_page + pages_per_pdf]: it is computed, or it raises
    [OverflowError] because the quotient or its hundredfold is beyond the
    floats. It raises nothing else: no division by zero, and no
    [ValueError], since no operation yields a NaN. *)
Theorem progress_value_overflow_only (start_page k T : Z) :
  0 < start_page + k -> 0 < T ->
  (exists v, progress_value start_page k T = Ok v)
  \/ progress_value start_page k T = Raise OverflowError.
Proof.
  intros Ha Hb. unfold progress_value, Py.int_truediv.
  destruct (T =? 0) eqn:E; [apply Z.eqb_eq in E; lia|].
  destruct (start_page + k) as [|a|a]; try lia.
  destruct T as [|b|b]; try lia. cbn [Py.exact].
  pose proof (SFdiv_exact_not_nan a b) as Hnan.
  destruct (SFdiv Py.prec Py.emax (S754_finite false a 0) (S754_finite false b 0))
    as [s|s| |s m e]; try contradiction.
  - left. eexists. reflexivity.
  - right. reflexivity.
  - unfold Py.float_mul_int.
    change (Py.float_of_int 100) with (S754_finite false 7036874417766400 (-46)).
    cbn [SFmul].
    pose proof (binary_round_aux_not_nan (xorb s false)
                  (Zpos (m * 7036874417766400)) (e + -46) loc_Exact ltac:(lia)) as Hn.
    destruct (binary_round_aux Py.prec Py.emax (xorb s false)
                (Zpos (m * 7036874417766400)) (e + -46) loc_Exact);
      try contradiction; [left; eexists; reflexivity | right; reflexivity
                         | left; eexists; reflexivity].
Qed.

(** ** Runs that end early *)

Section Outcome.

Context {Page : Type}.
Implicit Types (st : State Page) (pages : list Page).

Lemma check_pdf_run st (pdf : string) :
  check_pdf pdf st
  = (match files st !! pdf with
     | Some (PdfData _) => Ok true
     | Some NonPdfData => Ok false
     | Some LockedPdfData => Ok true
     | Some (BrokenData e) => if is_instance e PdfReadError then Ok false else Raise e
     | None => Raise FileNotFoundError
     end, st).
Proof.
  unfold check_pdf, try_except, bind, open_rb, lift.
  destruct (files st !! pdf) as [[pages| | |e]|]; try reflexivity.
  cbn. destruct (is_instance e PdfReadError); reflexivity.
Qed.

(** On an input the reader cannot page the run raises before it changes
    anything. *)
Lemma split_pdf_unreadable st :
  (forall pages, files st !! input_pdf_path (splitter st) <> Some (PdfData pages)) ->
  exists e : Exception, split_pdf st = (Raise e, st).
Proof.
  intros Hin. unfold split_pdf, bind, get_self, open_rb.
  destruct (files st !! input_pdf_path (splitter st)) as [[pages| | |e]|].
  - exfalso. apply (Hin pages). reflexivity.
  - eexists. reflexivity.
  - eexists. reflexivity.
  - eexists. reflexivity.
  - eexists. reflexivity.
Qed.

Lemma split_pdf_zero_step st pages :
  files st !! input_pdf_path (splitter st) = Some (PdfData pages) ->
  pages_per_pdf (splitter st) = 0 ->
  split_pdf st = (Raise ValueError, started st).
Proof.
  intros Hin Hk. rewrite (split_pdf_prologue st pages Hin), Hk. reflexivity.
Qed.

Lemma split_pdf_negative_step st pages :
  files st !! input_pdf_path (splitter st) = Some (PdfData pages) ->
  pages_per_pdf (splitter st) < 0 ->
  split_pdf st = (Ok tt, started st).
Proof.
  intros Hin Hk. rewrite (split_pdf_prologue st pages Hin).
  pose proof (Nat2Z.is_nonneg (length pages)) as HT.
  unfold bind, lift, Py.range, Py.range_length.
  destruct (pages_per_pdf (splitter st) =? 0) eqn:E0; [apply Z.eqb_eq in E0; lia|].
  destruct (0 <? pages_per_pdf (splitter st)) eqn:E1; [apply Z.ltb_lt in E1; lia|].
  destruct (Z.of_nat (length pages) <? 0) eqn:E2; [apply Z.ltb_lt in E2; lia|].
  reflexivity.
Qed.

(** X1. Chunk sizes the spin box cannot give. On a document the reader
    pages, a chunk size of 0 makes [split_pdf] raise [ValueError] (from
    [range], line 74), and a negative chunk size makes it return at once.
    Either way no file is written and no percentage reported: all that
    has changed is the counter, which line 72 has set to 1. *)
Theorem split_pdf_degenerate_chunk_size st pages :
  let self := splitter st in
  files st !! input_pdf_path self = Some (PdfData pages) ->
  pages_per_pdf self <= 0 ->
  split_pdf st
  = (if pages_per_pdf self =? 0 then Raise ValueError else Ok tt,
     mkState (set_sub_pdf_num 1 self) (files st) (progress_bar st)).
Proof.
  intros self Hin Hk.
  destruct (pages_per_pdf self =? 0) eqn:E.
  - apply Z.eqb_eq in E. apply (split_pdf_zero_step st pages Hin E).
  - apply Z.eqb_neq in E. apply (split_pdf_negative_step st pages Hin).
    unfold self in *. lia.
Qed.




End Outcome.

(** ** The last percentage, and a second run *)

(** The quotient of a page count by itself is 1.0, and its percentage 100. *)
Lemma SFdiv_exact_same (a : positive) :
  SFdiv Py.prec Py.emax (S754_finite false a 0) (S754_finite false a 0)
  = S754_finite false 4503599627370496 (-52).
Proof.
  unfold SFdiv, SFdiv_core_binary. cbn [xorb Zdigits2].
  replace (Z.pos (digits2_pos a) + 0 - (Z.pos (digits2_pos a) + 0)) with 0 by lia.
  change (Z.min (fexp Py.prec Py.emax 0) (0 - 0)) with (-53).
  change (0 - 0 - -53) with 53.
  cbv iota.
  assert (Hq : Z.div_eucl (Z.shiftl (Zpos a) 53) (Zpos a) = (2 ^ 53, 0)).
  { rewrite Z.shiftl_mul_pow2 by lia.
    pose proof (Z.div_mul (2 ^ 53) (Zpos a) ltac:(lia)) as Hd.
    pose proof (Z.mod_mul (2 ^ 53) (Zpos a) ltac:(lia)) as Hm.
    rewrite (Z.mul_comm (Zpos a)).
    unfold Z.div, Z.modulo in Hd, Hm.
    destruct (Z.div_eucl (2 ^ 53 * Zpos a) (Zpos a)) as [q r].
    cbn in Hd, Hm. subst. reflexivity. }
  rewrite Hq.
  assert (Hl : new_location (Zpos a) 0 = loc_Exact).
  { unfold new_location. destruct (Z.even (Zpos a)); reflexivity. }
  rewrite Hl. vm_compute. reflexivity.
Qed.

Lemma progress_value_whole (start_page k T : Z) :
  0 < T -> start_page + k = T -> progress_value start_page k T = Ok 100.
Proof.
  intros HT Hs. unfold progress_value, Py.int_truediv. rewrite Hs.
  destruct (T =? 0) eqn:E; [apply Z.eqb_eq in E; lia|].
  destruct T as [|a|a]; try lia. cbn [Py.exact].
  rewrite SFdiv_exact_same. vm_compute. reflexivity.
Qed.

Section Composition.

Context {Page : Type}.
Implicit Types (st : State Page) (pages : list Page).

(** X3. When the chunk size divides the page count, the last percentage
    reported by a run that is not cancelled and whose input is none of its
    output paths is exactly 100. *)
Theorem split_pdf_last_progress_100 st pages :
  let self := splitter st in
  let k := pages_per_pdf self in
  let T := Z.of_nat (length pages) in
  files st !! input_pdf_path self = Some (PdfData pages) ->
  1 <= k < chunk_size_limit ->
  1 <= T ->
  T mod k = 0 ->
  cancel self = false ->
  Forall (eq false) (clicks (progress_bar st)) ->
  (forall j : nat, input_pdf_path self <> nth_output_path self (Z.of_nat j + 1)) ->
  last (shown (progress_bar (snd (split_pdf st)))) = Some 100.
Proof.
  intros self k T Hin Hk HT Hdiv Hc Hall Hkept.
  assert (Hrun := split_pdf_bounded_run st pages Hin Hk ltac:(intros j _; apply Hkept)).
  cbv zeta in Hrun. fold self k T in Hrun.
  rewrite Hc, chunks_done_all in Hrun by assumption.
  rewrite Hrun. cbn [snd]. unfold after_chunks. cbn.
  destruct Hk as [Hk1 Hk2].
  assert (Hn : exists m : nat, Z.to_nat (ceil_div T k) = S m /\ Z.of_nat m * k + k = T).
  { apply Z.mod_divide in Hdiv; [|lia]. destruct Hdiv as [q Hq].
    assert (Hq1 : 1 <= q) by nia.
    exists (Z.to_nat (q - 1)).
    assert (Hc' : ceil_div T k = q).
    { unfold ceil_div. symmetry. apply Z.div_unique with (k - 1); lia. }
    rewrite Hc'. split; [lia|]. rewrite Z2Nat.id by lia. lia. }
  destruct Hn as (m & Hn & Hm). rewrite Hn, seq_S, map_app, app_assoc.
  cbn [map]. rewrite last_snoc. f_equal.
  unfold progress_of. rewrite Nat.add_0_l.
  rewrite (progress_value_whole _ _ T) by (unfold T, k, self in *; lia).
  reflexivity.
Qed.

Lemma existsb_take_all_false (answers : list bool) (n : nat) :
  Forall (eq false) answers -> existsb id (take n answers) = false.
Proof.
  intros Hall. revert n.
  induction Hall as [|b l Hb Hl IH]; intros [|m]; cbn; try reflexivity.
  subst b. cbn. apply IH.
Qed.

(** X5. Running the split again with the same settings overwrites the same
    files with the same chunks: the file system after the second run is the
    one after the first, and the counter is again one more than the number
    of files. The input file must not be one of the output paths. *)
Theorem split_pdf_rerun st pages :
  let self := splitter st in
  let k := pages_per_pdf self in
  let st1 := snd (split_pdf st) in
  let st2 := snd (split_pdf st1) in
  files st !! input_pdf_path self = Some (PdfData pages) ->
  1 <= k < chunk_size_limit ->
  cancel self = false ->
  Forall (eq false) (clicks (progress_bar st)) ->
  (forall j : nat, input_pdf_path self <> nth_output_path self (Z.of_nat j + 1)) ->
  fst (split_pdf st1) = Ok tt
  /\ files st2 = files st1
  /\ splitter st2 = splitter st1.
Proof.
  intros self k st1 st2 Hin Hk Hc Hall Hfresh.
  set (T := Z.of_nat (length pages)). set (n := Z.to_nat (ceil_div T k)).
  assert (Hrun := split_pdf_bounded_run st pages Hin Hk
                    ltac:(intros j _; apply Hfresh)).
  cbv zeta in Hrun. fold self k T n in Hrun.
  rewrite Hc, chunks_done_all in Hrun by assumption.
  assert (Hst1 : st1 = after_chunks pages 0 n (started st))
    by (subst st1; rewrite Hrun; reflexivity).
  assert (Hself1 : splitter st1
                   = set_sub_pdf_num (1 + Z.of_nat n) self).
  { rewrite Hst1. unfold after_chunks. cbn. fold self.
    rewrite existsb_take_all_false by exact Hall.
    unfold set_cancel, set_sub_pdf_num. cbn. rewrite Hc. reflexivity. }
  assert (Hin1 : files st1 !! input_pdf_path (splitter st1) = Some (PdfData pages)).
  { rewrite Hself1. cbn. rewrite Hst1, after_chunks_other; [exact Hin|].
    intros j _. apply Hfresh. }
  assert (Hk1 : 1 <= pages_per_pdf (splitter st1) < chunk_size_limit)
    by (rewrite Hself1; exact Hk).
  assert (Hrun1 := split_pdf_bounded_run st1 pages Hin1 Hk1
                     ltac:(intros j _; rewrite Hself1; apply Hfresh)).
  cbv zeta in Hrun1.
  assert (Hcfg : cancel (splitter st1) = false) by (rewrite Hself1; exact Hc).
  assert (Hall1 : Forall (eq false) (clicks (progress_bar st1))).
  { rewrite Hst1. unfold after_chunks. cbn. apply Forall_drop. exact Hall. }
  rewrite Hcfg, chunks_done_all in Hrun1 by assumption.
  replace (pages_per_pdf (splitter st1)) with k in Hrun1 by (rewrite Hself1; reflexivity).
  fold T n in Hrun1.
  subst st2. rewrite Hrun1. cbn [fst snd].
  split; [reflexivity|]. split.
  - apply map_eq. intros p.
    destruct (decide (p ∈ map (fun j : nat => nth_output_path self (Z.of_nat j + 1))
                             (seq 0 n))) as [Hp|Hp].
    + apply list_elem_of_In, in_map_iff in Hp. destruct Hp as (j & <- & Hj).
      apply in_seq in Hj.
      replace (nth_output_path self (Z.of_nat j + 1))
        with (nth_output_path (splitter st1) (Z.of_nat j + 1))
        by (rewrite Hself1; reflexivity).
      rewrite after_chunks_file by lia.
      rewrite Hself1. cbn. rewrite Hst1.
      change (nth_output_path (set_sub_pdf_num (1 + Z.of_nat n) self) (Z.of_nat j + 1))
        with (nth_output_path (splitter st) (Z.of_nat j + 1)).
      rewrite after_chunks_file by lia. reflexivity.
    + apply after_chunks_other. intros j Hj Heq. apply Hp.
      apply list_elem_of_In, in_map_iff. exists j. split.
      * rewrite Heq, Hself1. reflexivity.
      * apply in_seq. lia.
  - unfold after_chunks. cbn. rewrite Hself1. cbn. rewrite Hc.
    replace (clicks (progress_bar st1)) with (drop n (clicks (progress_bar st)))
      by (rewrite Hst1; reflexivity).
    rewrite existsb_take_all_false by (apply Forall_drop; exact Hall).
    unfold set_cancel, set_sub_pdf_num. cbn. rewrite Hc. reflexivity.
Qed.

End Composition.

(** ** What a run leaves alone *)

Section Frame.

Context {Page : Type}.
Implicit Types (st : State Page) (pages : list Page).

Lemma evolves_refl st : evolves st st.
Proof.
  unfold evolves; split_and!; try reflexivity; try (intros; assumption).
  - exists []. rewrite app_nil_r. reflexivity.
  - exists 0%nat. reflexivity.
Qed.

Lemma evolves_trans st1 st2 st3 :
  evolves st1 st2 -> evolves st2 st3 -> evolves st1 st3.
Proof.
  intros (Hi & Ho & Hk & Hz & Hd & Hf & [m1 Hs] & [a1 Ha])
         (Hi' & Ho' & Hk' & Hz' & Hd' & Hf' & [m2 Hs'] & [a2 Ha']).
  unfold evolves; split_and!; try congruence.
  - intros p Hp. apply Hd', Hd, Hp.
  - intros p Hp. rewrite Hf', Hf; [reflexivity|exact Hp|].
    intros m. unfold nth_output_path, output_pdf_path. cbn. rewrite Ho.
    apply (Hp m).
  - exists (m1 ++ m2). rewrite Hs', Hs, app_assoc. reflexivity.
  - exists (a1 + a2)%nat. rewrite Ha', Ha, drop_drop. reflexivity.
Qed.

Lemma evolves_started st : evolves st (started st).
Proof.
  unfold evolves; split_and!; try reflexivity; try (intros; assumption).
  - exists []. rewrite app_nil_r. reflexivity.
  - exists 0%nat. reflexivity.
Qed.

Lemma evolves_chunk_written pages (start_page : Z) st :
  evolves st (chunk_written pages start_page st).
Proof.
  unfold evolves; split_and!; try reflexivity.
  - intros p Hp. unfold chunk_written. cbn.
    destruct (decide (output_pdf_path (splitter st) = p)) as [->|Hne].
    + rewrite lookup_insert_eq. eexists. reflexivity.
    + rewrite lookup_insert_ne by exact Hne. exact Hp.
  - intros p Hp. unfold chunk_written. cbn.
    rewrite lookup_insert_ne; [reflexivity|].
    intros Heq. apply (Hp (sub_pdf_num (splitter st))). rewrite <- Heq.
    unfold nth_output_path, output_pdf_path. reflexivity.
  - exists []. rewrite app_nil_r. reflexivity.
  - exists 0%nat. reflexivity.
Qed.

Lemma evolves_chunk_reported (v : Z) st : evolves st (chunk_reported v st).
Proof.
  unfold chunk_reported, evolves.
  split_and!; cbn; try (destruct (hd false (clicks (progress_bar st))); reflexivity);
    try (intros; assumption).
  - exists [v]. reflexivity.
  - exists 1%nat. destruct (clicks (progress_bar st)); reflexivity.
Qed.

Lemma evolves_loop pages (k : Z) (starts : list Z) : forall st,
  pages_per_pdf (splitter st) = k -> 1 <= k ->
  Forall (fun start_page => 0 <= start_page < Z.of_nat (length pages)) starts ->
  evolves st (snd (for_each starts (split_chunk pages (Z.of_nat (length pages))) st)).
Proof.
  induction starts as [|start_page starts IH]; intros st Hst Hk Hall.
  - apply evolves_refl.
  - inversion Hall as [|? ? Hs Hrest]; subst.
    cbn [for_each]. unfold bind at 1.
    rewrite split_chunk_run by (rewrite ?Hst; lia).
    destruct (input_overwritten (splitter st)); [apply evolves_refl|].
    destruct (progress_value start_page (pages_per_pdf (splitter st))
                (Z.of_nat (length pages))) as [v|e].
    + cbv zeta.
      set (st1 := chunk_reported v (chunk_written pages start_page st)).
      assert (H1 : evolves st st1).
      { eapply evolves_trans; [apply evolves_chunk_written|].
        apply evolves_chunk_reported. }
      destruct (cancel (splitter st1)); [exact H1|].
      eapply evolves_trans; [exact H1|]. apply IH; [|exact Hk|exact Hrest].
      destruct H1 as (_ & _ & Hk1 & _). rewrite Hk1. reflexivity.
    + apply evolves_chunk_written.
Qed.

Lemma range_chunks_in_range (T k : Z) :
  0 <= T -> 1 <= k ->
  Forall (fun start_page => 0 <= start_page < T)
    (map (fun i : nat => Z.of_nat i * k) (seq 0 (Z.to_nat (ceil_div T k)))).
Proof.
  intros HT Hk. apply Forall_forall. intros x Hx.
  apply list_elem_of_In, in_map_iff in Hx. destruct Hx as (i & <- & Hi).
  apply in_seq in Hi.
  destruct (ceil_div_spec T k HT Hk) as [H|[H0 H1]].
  - nia.
  - rewrite H1 in Hi. cbn in Hi. lia.
Qed.

Lemma split_pdf_evolves st : evolves st (snd (split_pdf st)).
Proof.
  destruct (files st !! input_pdf_path (splitter st)) as [d|] eqn:Hin;
    [destruct d as [pages| | |e]|].
  2-5: destruct (split_pdf_unreadable st) as [e' He];
    [intros pages; rewrite Hin; discriminate|rewrite He; apply evolves_refl].
  - destruct (Z.eq_dec (pages_per_pdf (splitter st)) 0) as [E0|E0];
      [rewrite (split_pdf_zero_step st pages Hin E0); apply evolves_started|].
    destruct (Z_lt_le_dec (pages_per_pdf (splitter st)) 0) as [En|Ep];
      [rewrite (split_pdf_negative_step st pages Hin En); apply evolves_started|].
    rewrite (split_pdf_prologue st pages Hin).
    rewrite range_chunks by lia. unfold bind, lift.
    eapply evolves_trans; [apply evolves_started|].
    apply (evolves_loop pages (pages_per_pdf (splitter st)));
      [reflexivity|lia|].
    apply range_chunks_in_range; lia.
Qed.

(** X6. Whatever the state and however it ends, a run of [split_pdf] keeps
    the input path, the output directory, the chunk size and the
    compression choice; it deletes no file and changes no path that is not
    of the form [<output directory>/<number>.pdf]; it takes back no
    percentage it reported. *)
Theorem split_pdf_frame st :
  let self := splitter st in
  let st' := snd (split_pdf st) in
  input_pdf_path (splitter st') = input_pdf_path self
  /\ output_directory_path (splitter st') = output_directory_path self
  /\ pages_per_pdf (splitter st') = pages_per_pdf self
  /\ compress_zip (splitter st') = compress_zip self
  /\ (forall p : string, is_Some (files st !! p) -> is_Some (files st' !! p))
  /\ (forall p : string,
        (forall m : Z,
           p <> output_directory_path self +:+ "/" +:+ pretty m +:+ ".pdf") ->
        files st' !! p = files st !! p)
  /\ (exists more : list Z,
        shown (progress_bar st') = shown (progress_bar st) ++ more).
Proof.
  intros self st'.
  destruct (split_pdf_evolves st) as (Hi & Ho & Hk & Hz & Hd & Hf & Hs & _).
  split_and!; assumption.
Qed.

End Frame.

(** ** Paths *)

Lemma string_app_cons (c : ascii) (a b : string) :
  String c a +:+ b = String c (a +:+ b).
Proof. reflexivity. Qed.

Lemma string_length_app (a b : string) :
  String.length (a +:+ b) = (String.length a + String.length b)%nat.
Proof. induction a as [|c a IH]; rewrite ?string_app_cons; cbn; [reflexivity|]. f_equal. exact IH. Qed.

Lemma string_app_assoc (a b c : string) : (a +:+ b) +:+ c = a +:+ (b +:+ c).
Proof. induction a as [|x a IH]; rewrite ?string_app_cons; cbn; [reflexivity|]. f_equal. exact IH. Qed.

Lemma string_app_nil_r (a : string) : a +:+ "" = a.
Proof. induction a as [|x a IH]; rewrite ?string_app_cons; cbn; [reflexivity|]. f_equal. exact IH. Qed.

Lemma substring_app_l (a b : string) : substring 0 (String.length a) (a +:+ b) = a.
Proof. induction a as [|c a IH]; rewrite ?string_app_cons; cbn; [destruct b; reflexivity|]. f_equal. exact IH. Qed.

Lemma substring_all (b : string) : substring 0 (String.length b) b = b.
Proof. induction b as [|c b IH]; cbn; [reflexivity|]. f_equal. exact IH. Qed.

Lemma substring_app_r (a b : string) :
  substring (String.length a) (String.length b) (a +:+ b) = b.
Proof. induction a as [|c a IH]; rewrite ?string_app_cons; cbn; [apply substring_all|exact IH]. Qed.

Lemma rfind_from_lacks (c : ascii) (s : string) : forall (pos last : nat) (found : bool),
  lacks c s = true ->
  OsPath.rfind_from c s pos last found = if found then Some last else None.
Proof.
  induction s as [|a s IH]; intros pos last found H; simpl in *; [reflexivity|].
  apply andb_true_iff in H as [Ha Hs]. apply negb_true_iff in Ha. rewrite Ha.
  apply IH. exact Hs.
Qed.

Lemma rfind_from_last (c : ascii) (a b : string) : forall (pos last : nat) (found : bool),
  lacks c b = true ->
  OsPath.rfind_from c (a +:+ String c b) pos last found
  = Some (pos + String.length a)%nat.
Proof.
  induction a as [|x a IH]; intros pos last found Hb; rewrite ?string_app_cons; simpl.
  - rewrite Ascii.eqb_refl, rfind_from_lacks by exact Hb. f_equal. lia.
  - destruct (Ascii.eqb x c); rewrite IH by exact Hb; f_equal; lia.
Qed.

(** The base name of [a/b] is [b] when [b] holds no slash. *)
Lemma basename_after_slash (a b : string) :
  lacks "/" b = true -> OsPath.basename (a +:+ String "/" b) = b.
Proof.
  intros Hb. unfold OsPath.basename, OsPath.after_last_slash, OsPath.rfind.
  rewrite rfind_from_last by exact Hb. cbn [Nat.add].
  assert (Hp : a +:+ String "/" b = (a +:+ "/") +:+ b)
    by (rewrite string_app_assoc; reflexivity).
  assert (Hl : S (String.length a) = String.length (a +:+ "/"))
    by (rewrite string_length_app; simpl; lia).
  rewrite Hp, Hl.
  replace (String.length ((a +:+ "/") +:+ b) - String.length (a +:+ "/"))%nat
    with (String.length b) by (rewrite (string_length_app (a +:+ "/") b); lia).
  apply substring_app_r.
Qed.

Lemma basename_plain (b : string) : lacks "/" b = true -> OsPath.basename b = b.
Proof.
  intros Hb. unfold OsPath.basename, OsPath.after_last_slash, OsPath.rfind.
  rewrite rfind_from_lacks by exact Hb. rewrite Nat.sub_0_r. apply substring_all.
Qed.

Lemma ends_with_slash_split (a : string) :
  OsPath.ends_with_slash a = true -> exists a', a = a' +:+ "/".
Proof.
  induction a as [|c a IH]; rewrite ?string_app_cons; cbn; [discriminate|].
  destruct a as [|d a].
  - intros Hc. exists "". unfold OsPath.is_slash in Hc.
    apply Ascii.eqb_eq in Hc. subst c. reflexivity.
  - intros H. destruct (IH H) as [a' Ha']. exists (String c a').
    rewrite string_app_cons, <- Ha'. reflexivity.
Qed.

(** The base name of [os.path.join(root, name)] is [name]. *)
Lemma basename_join (root name : string) :
  lacks "/" name = true -> OsPath.basename (OsPath.join root name) = name.
Proof.
  intros Hn. unfold OsPath.join.
  destruct name as [|c name].
  - destruct root as [|r root]; [reflexivity|].
    destruct (OsPath.ends_with_slash (String r root)) eqn:E.
    + destruct (ends_with_slash_split _ E) as [a' Ha']. rewrite Ha'.
      rewrite string_app_nil_r.
      change (a' +:+ "/") with (a' +:+ String "/" ""). apply basename_after_slash.
      reflexivity.
    + change (String r root +:+ "/" +:+ "") with (String r root +:+ String "/" "").
      apply basename_after_slash. reflexivity.
  - assert (Hc : Ascii.eqb c "/" = false).
    { simpl in Hn. apply andb_true_iff in Hn as [Hc _].
      apply negb_true_iff in Hc. exact Hc. }
    assert (Hj : (match String c name with
                  | String "/"%char _ => String c name
                  | _ => match root with
                         | EmptyString => String c name
                         | _ => if OsPath.ends_with_slash root
                                then root +:+ String c name
                                else root +:+ "/" +:+ String c name
                         end
                  end)
                 = match root with
                   | EmptyString => String c name
                   | _ => if OsPath.ends_with_slash root
                          then root +:+ String c name
                          else root +:+ "/" +:+ String c name
                   end).
    { destruct c as [[] [] [] [] [] [] [] []]; try reflexivity. discriminate Hc. }
    rewrite Hj. clear Hj.
    destruct root as [|r root]; [apply basename_plain; exact Hn|].
    destruct (OsPath.ends_with_slash (String r root)) eqn:E.
    + destruct (ends_with_slash_split _ E) as [a' Ha']. rewrite Ha'.
      rewrite string_app_assoc.
      change ("/" +:+ String c name) with (String "/" (String c name)).
      apply basename_after_slash. exact Hn.
    + change (String r root +:+ "/" +:+ String c name)
        with (String r root +:+ String "/" (String c name)).
      apply basename_after_slash. exact Hn.
Qed.

(** ** What the archive holds *)

Lemma Node_nested_ind (P : Node -> Prop) :
  (forall name, P (File name)) ->
  (forall name entries, Forall P entries -> P (Dir name entries)) ->
  forall n, P n.
Proof.
  intros HF HD. fix IH 1. intros [name|name entries].
  - apply HF.
  - apply HD. induction entries as [|e es IHes]; constructor; [apply IH|exact IHes].
Qed.

Lemma file_names_cons (e : Node) (es : list Node) :
  file_names (e :: es)
  = match e with File name => name :: file_names es | Dir _ _ => file_names es end.
Proof. destruct e; reflexivity. Qed.

Lemma walk_entries_paths (es : list Node) :
  Forall (fun n => forall root : string,
            flat_map entries_of (walk_node root n)
            ≡ₚ match n with
               | File _ => []
               | Dir name entries =>
                   flat_map (all_entries (OsPath.join root name)) entries
               end) es ->
  forall root : string,
    map (fun file_name => (file_name, OsPath.join root file_name)) (file_names es)
      ++ flat_map entries_of (flat_map (walk_node root) es)
    ≡ₚ flat_map (all_entries root) es.
Proof.
  intros Hes root. induction Hes as [|e es He Hes IH]; [reflexivity|].
  rewrite file_names_cons. cbn [flat_map]. rewrite flat_map_app.
  destruct e as [f|d ds].
  - cbn [walk_node flat_map all_entries app map]. constructor. exact IH.
  - rewrite Permutation_app_swap_app.
    rewrite (He root), IH. reflexivity.
Qed.

Lemma walk_node_paths (n : Node) : forall root : string,
  flat_map entries_of (walk_node root n)
  ≡ₚ match n with
     | File _ => []
     | Dir name entries => flat_map (all_entries (OsPath.join root name)) entries
     end.
Proof.
  pattern n. revert n. apply Node_nested_ind.
  - intros name root. reflexivity.
  - intros name entries Hentries root.
    cbn [walk_node flat_map entries_of].
    apply walk_entries_paths. exact Hentries.
Qed.

(** The files a walk meets below a list of entries are the files of the
    entries, each with its own path, in another order. *)
Lemma walk_meets_every_file (top : string) (es : list Node) :
  flat_map entries_of (os_walk top es) ≡ₚ flat_map (all_entries top) es.
Proof.
  unfold os_walk. cbn [flat_map entries_of].
  apply walk_entries_paths. apply Forall_forall. intros n _.
  apply walk_node_paths.
Qed.

(** X7. An archive nobody cancels holds every file below the output
    directory, at whatever depth, exactly once: the file is read from its
    own path and stored under its bare name. *)
Theorem zip_pdf_archives_every_file (self : PDFSplitter) (output_directory : list Node)
  (answers : list bool) :
  Forall (eq false) answers ->
  archive_entries (zip_pdf self output_directory answers)
  ≡ₚ flat_map (all_entries (output_directory_path self)) output_directory.
Proof.
  intros Hall. rewrite zip_pdf_entries_uncancelled by exact Hall.
  apply walk_meets_every_file.
Qed.

Lemma file_names_lack_slash (es : list Node) :
  forallb well_named es = true ->
  Forall (fun f => lacks "/" f = true) (file_names es).
Proof.
  induction es as [|e es IH]; intros H; [constructor|].
  cbn [forallb] in H. apply andb_true_iff in H as [He Hes].
  rewrite file_names_cons. destruct e as [f|d ds]; [constructor|]; auto.
Qed.

Lemma walk_entries_well_named (es : list Node) :
  Forall (fun n => well_named n = true ->
                   forall root : string,
                     Forall (fun item => Forall (fun f => lacks "/" f = true)
                                           (walked_files item))
                       (walk_node root n)) es ->
  forallb well_named es = true ->
  forall root : string,
    Forall (fun item => Forall (fun f => lacks "/" f = true) (walked_files item))
      (flat_map (walk_node root) es).
Proof.
  intros Hes. induction Hes as [|e es He Hes IH]; intros H root; [constructor|].
  cbn [forallb] in H. apply andb_true_iff in H as [Hwe Hwes].
  cbn [flat_map]. apply Forall_app. split; [apply He; exact Hwe|apply IH; exact Hwes].
Qed.

Lemma walk_node_well_named (n : Node) :
  well_named n = true ->
  forall root : string,
    Forall (fun item => Forall (fun f => lacks "/" f = true) (walked_files item))
      (walk_node root n).
Proof.
  pattern n. revert n. apply Node_nested_ind.
  - intros name _ root. constructor.
  - intros name entries Hentries H root.
    cbn [well_named] in H. apply andb_true_iff in H as [_ Hes].
    cbn [walk_node]. constructor.
    + apply file_names_lack_slash. exact Hes.
    + apply walk_entries_well_named; assumption.
Qed.

Lemma os_walk_well_named (top : string) (es : list Node) :
  forallb well_named es = true ->
  Forall (fun item => Forall (fun f => lacks "/" f = true) (walked_files item))
    (os_walk top es).
Proof.
  intros H. unfold os_walk. constructor.
  - apply file_names_lack_slash. exact H.
  - apply walk_entries_well_named; [|exact H].
    apply Forall_forall. intros n _. apply walk_node_well_named.
Qed.

Lemma zip_files_base_names (root : string) (files : list string) :
  Forall (fun f => lacks "/" f = true) files ->
  forall (answers : list bool) (entries : list (string * string)),
    Forall (fun e => fst e = OsPath.basename (snd e) /\ lacks "/" (fst e) = true) entries ->
    Forall (fun e => fst e = OsPath.basename (snd e) /\ lacks "/" (fst e) = true)
      (snd (zip_files root files answers entries)).
Proof.
  intros Hfiles. induction Hfiles as [|f files Hf Hfiles IH]; intros answers entries He.
  - exact He.
  - cbn [zip_files].
    assert (He' : Forall (fun e => fst e = OsPath.basename (snd e)
                                   /\ lacks "/" (fst e) = true)
                    (entries ++ [(f, OsPath.join root f)])).
    { apply Forall_app. split; [exact He|]. constructor; [|constructor].
      cbn [fst snd]. split; [|exact Hf]. symmetry. apply basename_join. exact Hf. }
    destruct (hd false answers); [exact He'|apply IH; exact He'].
Qed.

(** X8. Cancelled or not, every entry of the archive is stored under the
    base name of the file it was read from, without any directory part. *)
Theorem zip_pdf_flattens (self : PDFSplitter) (output_directory : list Node)
  (answers : list bool) :
  forallb well_named output_directory = true ->
  Forall (fun e => fst e = OsPath.basename (snd e) /\ lacks "/" (fst e) = true)
    (archive_entries (zip_pdf self output_directory answers)).
Proof.
  intros Hwn. unfold zip_pdf.
  pose proof (os_walk_well_named (output_directory_path self) _ Hwn) as Hitems.
  assert (Hgen : forall items answers entries,
             Forall (fun item => Forall (fun f => lacks "/" f = true)
                                   (walked_files item)) items ->
             Forall (fun e => fst e = OsPath.basename (snd e) /\ lacks "/" (fst e) = true) entries ->
             Forall (fun e => fst e = OsPath.basename (snd e)
                              /\ lacks "/" (fst e) = true)
               (snd (foldl (fun '(answers, entries) '(root, _, files) =>
                              zip_files root files answers entries)
                       (answers, entries) items))).
  { clear. induction items as [|[[root dirs] files] items IH];
      intros answers entries Hitems He; [exact He|].
    inversion Hitems as [|? ? Hfiles Hrest]; subst. cbn [foldl].
    pose proof (zip_files_base_names root files Hfiles answers entries He) as H1.
    destruct (zip_files root files answers entries) as [answers' entries'].
    apply IH; assumption. }
  specialize (Hgen _ answers [] Hitems ltac:(constructor)).
  destruct (foldl _ (answers, []) _) as [answers' entries]. cbn [archive_entries].
  exact Hgen.
Qed.

(** X9. Cancelling the archive dialog does not stop the archive: [break]
    leaves the files of one directory only, so a dialog that answers
    cancelled every time still puts the first file of every directory into
    the archive. *)
Theorem zip_pdf_cancel_skips_one_directory (self : PDFSplitter)
  (output_directory : list Node) (answers : list bool) :
  Forall (eq true) answers ->
  (length (os_walk (output_directory_path self) output_directory)
   <= length answers)%nat ->
  archive_entries (zip_pdf self output_directory answers)
  = flat_map (fun item => take 1 (entries_of item))
      (os_walk (output_directory_path self) output_directory).
Proof.
  intros Hall Hlen. unfold zip_pdf.
  assert (Hgen : forall items answers entries,
             Forall (eq true) answers ->
             (length items <= length answers)%nat ->
             snd (foldl (fun '(answers, entries) '(root, _, files) =>
                           zip_files root files answers entries)
                    (answers, entries) items)
             = entries ++ flat_map (fun item => take 1 (entries_of item)) items).
  { clear. induction items as [|[[root dirs] files] items IH];
      intros answers entries Hall Hlen.
    - cbn. rewrite app_nil_r. reflexivity.
    - cbn [foldl]. destruct Hall as [|b answers Hb Hall]; [cbn in Hlen; lia|].
      subst b. cbn [length] in Hlen.
      destruct files as [|f files].
      + cbn [zip_files]. rewrite IH; [|constructor; auto|cbn; lia].
        reflexivity.
      + cbn [zip_files hd tl]. rewrite IH; [|exact Hall|lia].
        cbn [flat_map entries_of map take]. rewrite <- app_assoc. reflexivity. }
  specialize (Hgen _ answers [] Hall Hlen).
  destruct (foldl _ (answers, []) _) as [answers' entries].
  cbn [archive_entries]. exact Hgen.
Qed.

(** ** Where the archive goes *)

Lemma lacks_app (c : ascii) (a b : string) :
  lacks c (a +:+ b) = lacks c a && lacks c b.
Proof.
  induction a as [|x a IH]; rewrite ?string_app_cons; cbn; [reflexivity|].
  rewrite IH, andb_assoc. reflexivity.
Qed.

Lemma split_first_at (sep : ascii) (a b : string) :
  lacks sep a = true -> OsPath.split_first sep (a +:+ String sep b) = a.
Proof.
  intros Ha. induction a as [|x a IH]; rewrite ?string_app_cons.
  - change ("" +:+ String sep b) with (String sep b). cbn.
    rewrite Ascii.eqb_refl. reflexivity.
  - cbn in Ha. apply andb_true_iff in Ha as [Hx Ha]. apply negb_true_iff in Hx.
    cbn [OsPath.split_first]. rewrite Hx, IH by exact Ha. reflexivity.
Qed.

Lemma rstrip_slash_fixed (s : string) :
  OsPath.ends_with_slash s = false -> OsPath.rstrip_slash s = s.
Proof.
  induction s as [|c s IH]; [reflexivity|].
  cbn [OsPath.ends_with_slash OsPath.rstrip_slash].
  destruct s as [|d s].
  - intros Hc. cbn. rewrite Hc. reflexivity.
  - intros H. rewrite (IH H). reflexivity.
Qed.

Lemma rstrip_slash_app (s : string) :
  OsPath.rstrip_slash (s +:+ "/") = OsPath.rstrip_slash s.
Proof.
  induction s as [|c s IH]; [reflexivity|].
  rewrite string_app_cons. cbn [OsPath.rstrip_slash]. rewrite IH. reflexivity.
Qed.

Lemma all_slashes_ends (s : string) :
  OsPath.all_slashes s = true -> s = "" \/ OsPath.ends_with_slash s = true.
Proof.
  induction s as [|c s IH]; [left; reflexivity|].
  cbn [OsPath.all_slashes]. intros H. apply andb_true_iff in H as [Hc Hs].
  right. cbn [OsPath.ends_with_slash].
  destruct s as [|d s]; [exact Hc|].
  destruct (IH Hs) as [E|E]; [discriminate|exact E].
Qed.

Lemma all_slashes_app (a b : string) :
  OsPath.all_slashes (a +:+ b) = OsPath.all_slashes a && OsPath.all_slashes b.
Proof.
  induction a as [|x a IH]; rewrite ?string_app_cons; cbn; [reflexivity|].
  rewrite IH, andb_assoc. reflexivity.
Qed.

(** The directory part of [parent/leaf]. *)
Lemma dirname_of_child (parent leaf : string) :
  parent <> "" -> OsPath.ends_with_slash parent = false ->
  lacks "/" leaf = true ->
  OsPath.dirname (parent +:+ String "/" leaf) = parent.
Proof.
  intros Hne Hend Hleaf.
  unfold OsPath.dirname, OsPath.after_last_slash, OsPath.rfind.
  rewrite rfind_from_last by exact Hleaf. cbn [Nat.add].
  assert (Hp : parent +:+ String "/" leaf = (parent +:+ "/") +:+ leaf)
    by (rewrite string_app_assoc; reflexivity).
  assert (Hl : S (String.length parent) = String.length (parent +:+ "/"))
    by (rewrite string_length_app; simpl; lia).
  rewrite Hp, Hl, substring_app_l.
  destruct (OsPath.all_slashes (parent +:+ "/")) eqn:E.
  - rewrite all_slashes_app in E. apply andb_true_iff in E as [E _].
    destruct (all_slashes_ends _ E) as [E'|E']; [contradiction|congruence].
  - rewrite rstrip_slash_app. apply rstrip_slash_fixed. exact Hend.
Qed.

(** X10. Where the names are plain the archive is named and placed as one
    expects: for an input [dir/name.ext] whose [name] holds neither slash
    nor dot, and an output directory [parent/leaf], the archive is
    [parent/name.zip]; and when the base name of the input starts with a
    dot, the archive is [parent/.zip]. *)
Theorem zip_path_plain_names (self : PDFSplitter)
  (dir name ext parent leaf : string) :
  output_directory_path self = parent +:+ "/" +:+ leaf ->
  parent <> "" -> OsPath.ends_with_slash parent = false ->
  lacks "/" leaf = true ->
  lacks "/" name = true -> lacks "/" ext = true ->
  (input_pdf_path self = dir +:+ "/" +:+ name +:+ "." +:+ ext ->
   lacks "." name = true ->
   zip_path self = parent +:+ "/" +:+ name +:+ ".zip")
  /\ (input_pdf_path self = dir +:+ "/" +:+ "." +:+ ext ->
      zip_path self = parent +:+ "/.zip").
Proof.
  intros Hout Hne Hend Hleaf Hname Hext. unfold zip_path. rewrite Hout.
  change (parent +:+ "/" +:+ leaf) with (parent +:+ String "/" leaf).
  rewrite dirname_of_child by assumption.
  split.
  - intros Hin Hdot. rewrite Hin.
    change (dir +:+ "/" +:+ name +:+ "." +:+ ext)
      with (dir +:+ String "/" (name +:+ String "." ext)).
    rewrite basename_after_slash
      by (rewrite lacks_app; cbn; rewrite Hname, Hext; reflexivity).
    rewrite split_first_at by exact Hdot.
    rewrite basename_plain by exact Hname. reflexivity.
  - intros Hin. rewrite Hin.
    change (dir +:+ "/" +:+ "." +:+ ext) with (dir +:+ String "/" (String "." ext)).
    rewrite basename_after_slash by (cbn; rewrite Hext; reflexivity).
    reflexivity.
Qed.

(** ** The window *)




Section WindowProofs.

Context {Page : Type}.
Implicit Types (w : MainWindow Page) (st : State Page).

Lemma with_world_same w : with_world (world w) w = w.
Proof. destruct w; reflexivity. Qed.


Lemma handle_keeps_spin_range (ev : Event Page) w :
  pages_per_pdf (splitter (world w)) = pages_num w
  /\ 1 <= pages_per_pdf (splitter (world w)) <= 99 ->
  pages_per_pdf (splitter (world (handle ev w))) = pages_num (handle ev w)
  /\ 1 <= pages_per_pdf (splitter (world (handle ev w))) <= 99.
Proof.
  intros [IHeq IHr].
  destruct ev as [f|d|n|t|t|c|answers zip_answers tree archive_data|];
    cbn [handle].
  - cbn. auto.
  - unfold openDirectoryDialog. destruct d; cbn; auto.
  - unfold spin_to. cbv zeta.
    destruct (Z.max 1 (Z.min 99 n) =? pages_num w); [auto|]. cbn. lia.
  - cbn. auto.
  - cbn. auto.
  - cbn. auto.
  - unfold splitPDF. rewrite check_pdf_run.
    destruct (files (world w) !! input_pdf_path (splitter (world w)))
      as [[pages| | |e]|] eqn:Hin;
      try destruct (is_instance e PdfReadError);
      cbn [fst snd]; rewrite ?with_world_same;
      try (cbn; auto; fail).
    all: cbv zeta;
      destruct (isfile w (input_pdf_path (splitter (world w)))
                && isdir w (output_directory_path (splitter (world w))));
      [ match goal with
        | |- context [split_pdf ?st0] =>
            destruct (split_pdf_evolves st0) as (_ & _ & Hk & _);
            destruct (split_pdf st0) as [[[]|e'] st1]
        end; cbn [snd] in *; cbn in Hk; cbn;
        try destruct (compres_zip_checkBox w); cbn; rewrite Hk; auto
      | repeat match goal with
               | |- context [if ?b then _ else _] => destruct b
               end; cbn; auto ].
  - unfold clearFields, spin_to. cbv zeta.
    match goal with
    | |- context [if ?b then _ else _] => destruct b eqn:E
    end; cbn in *; [apply Z.eqb_eq in E|]; lia.
Qed.

(** X11. In every window a session can reach, the chunk size of the
    splitter is the value the spin box shows, and it lies between 1 and 99. *)
Theorem reachable_pages_per_pdf w :
  reachable w ->
  pages_per_pdf (splitter (world w)) = pages_num w
  /\ 1 <= pages_per_pdf (splitter (world w)) <= 99.
Proof.
  induction 1 as [fs dirs|ev w Hw IH].
  - cbn. lia.
  - apply handle_keeps_spin_range. exact IH.
Qed.


(** X12. When the input path names no file that can be opened, a click on
    "Split PDF" raises: the check of the PDF comes before the test for an
    empty field, so what the user gets is the exception, with no message
    box and the window left as it was. With the empty path of a window
    that has just opened, or of one just cleared, the exception is
    [FileNotFoundError]. *)
Theorem splitPDF_raises_without_input_file (answers zip_answers : list bool)
  (tree : list Node) (archive_data : FileData Page) w :
  files (world w) !! input_pdf_path (splitter (world w)) = None ->
  exists e : Exception,
    splitPDF answers zip_answers tree archive_data w = (Raise e, w)
    /\ (input_pdf_path (splitter (world w)) = "" -> e = FileNotFoundError).
Proof.
  intros Hin. exists FileNotFoundError. split; [|reflexivity].
  unfold splitPDF. rewrite check_pdf_run, Hin. rewrite with_world_same.
  reflexivity.
Qed.

(** X13. Two of the messages of [splitPDF] can never appear: the check of
    the PDF comes first and raises on a missing file, so the slot shows
    neither "The selected file doesn't exist." nor "Unexpected error". *)
Theorem splitPDF_unreachable_messages (answers zip_answers : list bool)
  (tree : list Node) (archive_data : FileData Page) w :
  let w' := snd (splitPDF answers zip_answers tree archive_data w) in
  boxes w' = boxes w
  \/ exists b : MessageBox,
       boxes w' = boxes w ++ [b]
       /\ b <> Critical "The selected file doesn't exist."
       /\ b <> Critical "Unexpected error".
Proof.
  intros w'. subst w'. unfold splitPDF. rewrite check_pdf_run.
  destruct (files (world w) !! input_pdf_path (splitter (world w)))
    as [[pages| | |e]|] eqn:Hin;
    try destruct (is_instance e PdfReadError);
    rewrite ?with_world_same; cbn [fst snd];
    try (left; reflexivity);
    try (right; eexists; split; [reflexivity|split; discriminate]).
  all: cbv zeta;
    assert (Hfile : isfile w (input_pdf_path (splitter (world w))) = true)
      by (apply bool_decide_eq_true; rewrite Hin; eexists; reflexivity);
    rewrite Hfile; cbn [andb negb];
    destruct (isdir w (output_directory_path (splitter (world w))));
    [ match goal with
      | |- context [split_pdf ?st0] => destruct (split_pdf st0) as [[[]|e] st1]
      end; cbn [snd];
      [ right; exists (Information "Pdfs have been split successfully!");
        split; [cbn; destruct (compres_zip_checkBox w); reflexivity
               |split; discriminate]
      | left; reflexivity ]
    | cbn [negb];
      destruct (String.eqb (script_input w) "");
        [|destruct (String.eqb (output_directory w) "")];
        right; eexists; (split; [reflexivity|split; discriminate]) ].
Qed.


(** X15. Leaving the directory dialog without a choice empties the output
    path of the splitter while the field goes on showing the directory
    chosen before; a click on "Split PDF" then answers that the selected
    output directory does not exist. *)
Theorem openDirectoryDialog_cancelled (answers zip_answers : list bool)
  (tree : list Node) (archive_data : FileData Page) w (pages : list Page) :
  let w1 := openDirectoryDialog "" w in
  files (world w) !! input_pdf_path (splitter (world w)) = Some (PdfData pages) ->
  script_input w <> "" ->
  output_directory w <> "" ->
  isdir w "" = false ->
  output_directory w1 = output_directory w
  /\ output_directory_path (splitter (world w1)) = ""
  /\ splitPDF answers zip_answers tree archive_data w1
     = (Ok tt,
        show_box (Critical "The selected output directory doesn't exist") w1).
Proof.
  intros w1 Hin Hs Ho Hdir.
  split; [reflexivity|]. split; [reflexivity|].
  unfold splitPDF. rewrite check_pdf_run.
  change (files (world w1)) with (files (world w)).
  change (input_pdf_path (splitter (world w1)))
    with (input_pdf_path (splitter (world w))).
  rewrite Hin. cbv zeta. rewrite with_world_same.
  change (output_directory_path (splitter (world w1))) with "".
  change (isdir w1 "") with (isdir w "").
  rewrite Hdir, andb_false_r.
  change (script_input w1) with (script_input w).
  change (output_directory w1) with (output_directory w).
  apply String.eqb_neq in Hs, Ho. rewrite Hs, Ho.
  change (input_pdf_path (splitter (world w1)))
    with (input_pdf_path (splitter (world w))).
  assert (Hfile : isfile w1 (input_pdf_path (splitter (world w))) = true).
  { unfold isfile. apply bool_decide_eq_true.
    change (files (world w1)) with (files (world w)). rewrite Hin.
    eexists. reflexivity. }
  rewrite Hfile. reflexivity.
Qed.

End WindowProofs.

(** ** The properties on the sample runs *)

Lemma split_pdf_degenerate_chunk_size_witness :
  (files (run_op (SetPages 0) ten_pages)
     !! input_pdf_path (splitter (run_op (SetPages 0) ten_pages))
   = Some (PdfData (seq 0 10))
   /\ pages_per_pdf (splitter (run_op (SetPages 0) ten_pages)) <= 0)
  /\ fst (split_pdf (run_op (SetPages 0) ten_pages)) = Raise ValueError.
Proof.
  assert (H1 : files (run_op (SetPages 0) ten_pages)
                 !! input_pdf_path (splitter (run_op (SetPages 0) ten_pages))
               = Some (PdfData (seq 0 10))) by reflexivity.
  assert (H2 : pages_per_pdf (splitter (run_op (SetPages 0) ten_pages)) <= 0)
    by (simpl; lia).
  split; [auto|].
  exact (f_equal fst (split_pdf_degenerate_chunk_size
                        (run_op (SetPages 0) ten_pages) (seq 0 10) H1 H2)).
Defined.

Lemma progress_value_overflow_only_witness :
  (0 < 0 + 4 /\ 0 < 10)
  /\ ((exists v : Z, progress_value 0 4 10 = Ok v)
      \/ progress_value 0 4 10 = Raise OverflowError).
Proof.
  assert (H1 : 0 < 0 + 4) by lia.
  assert (H2 : 0 < 10) by lia.
  split; [auto|].
  exact (progress_value_overflow_only 0 4 10 H1 H2).
Defined.

Lemma split_pdf_last_progress_100_witness :
  (files twelve_pages !! input_pdf_path (splitter twelve_pages)
   = Some (PdfData (seq 0 12))
   /\ 1 <= pages_per_pdf (splitter twelve_pages) < chunk_size_limit
   /\ 1 <= Z.of_nat (length (seq 0 12))
   /\ Z.of_nat (length (seq 0 12)) mod pages_per_pdf (splitter twelve_pages) = 0
   /\ cancel (splitter twelve_pages) = false
   /\ Forall (eq false) (clicks (progress_bar twelve_pages))
   /\ (forall j : nat,
         input_pdf_path (splitter twelve_pages)
         <> nth_output_path (splitter twelve_pages) (Z.of_nat j + 1)))
  /\ last (shown (progress_bar (snd (split_pdf twelve_pages)))) = Some 100.
Proof.
  assert (H1 : files twelve_pages !! input_pdf_path (splitter twelve_pages)
               = Some (PdfData (seq 0 12))) by reflexivity.
  assert (H2 : 1 <= pages_per_pdf (splitter twelve_pages) < chunk_size_limit)
    by (simpl; split; [lia | reflexivity]).
  assert (H3 : 1 <= Z.of_nat (length (seq 0 12))) by (simpl; lia).
  assert (H4 : Z.of_nat (length (seq 0 12)) mod pages_per_pdf (splitter twelve_pages) = 0)
    by reflexivity.
  assert (H5 : cancel (splitter twelve_pages) = false) by reflexivity.
  assert (H6 : Forall (eq false) (clicks (progress_bar twelve_pages))) by constructor.
  assert (H7 : forall j : nat,
             input_pdf_path (splitter twelve_pages)
             <> nth_output_path (splitter twelve_pages) (Z.of_nat j + 1))
    by (intros j; simpl; discriminate).
  split; [auto 10|].
  exact (split_pdf_last_progress_100 twelve_pages (seq 0 12) H1 H2 H3 H4 H5 H6 H7).
Defined.

Lemma split_pdf_rerun_witness :
  (files ten_pages !! input_pdf_path (splitter ten_pages) = Some (PdfData (seq 0 10))
   /\ 1 <= pages_per_pdf (splitter ten_pages) < chunk_size_limit
   /\ cancel (splitter ten_pages) = false
   /\ Forall (eq false) (clicks (progress_bar ten_pages))
   /\ (forall j : nat,
         input_pdf_path (splitter ten_pages)
         <> nth_output_path (splitter ten_pages) (Z.of_nat j + 1)))
  /\ files (snd (split_pdf (snd (split_pdf ten_pages))))
     = files (snd (split_pdf ten_pages)).
Proof.
  assert (H1 : files ten_pages !! input_pdf_path (splitter ten_pages)
               = Some (PdfData (seq 0 10))) by reflexivity.
  assert (H2 : 1 <= pages_per_pdf (splitter ten_pages) < chunk_size_limit)
    by (simpl; split; [lia | reflexivity]).
  assert (H3 : cancel (splitter ten_pages) = false) by reflexivity.
  assert (H4 : Forall (eq false) (clicks (progress_bar ten_pages))) by constructor.
  assert (H5 : forall j : nat,
             input_pdf_path (splitter ten_pages)
             <> nth_output_path (splitter ten_pages) (Z.of_nat j + 1))
    by (intros j; simpl; discriminate).
  split; [auto 10|].
  exact (proj1 (proj2 (split_pdf_rerun ten_pages (seq 0 10) H1 H2 H3 H4 H5))).
Defined.

Lemma zip_pdf_archives_every_file_witness :
  Forall (eq false) (@nil bool)
  /\ archive_entries (zip_pdf plain_splitter nested_output [])
     ≡ₚ flat_map (all_entries (output_directory_path plain_splitter)) nested_output.
Proof.
  assert (H1 : Forall (eq false) (@nil bool)) by constructor.
  split; [exact H1|].
  exact (zip_pdf_archives_every_file plain_splitter nested_output [] H1).
Defined.

Lemma zip_pdf_flattens_witness :
  forallb well_named nested_output = true
  /\ Forall (fun e => fst e = OsPath.basename (snd e) /\ lacks "/" (fst e) = true)
       (archive_entries (zip_pdf plain_splitter nested_output [false; true])).
Proof.
  assert (H1 : forallb well_named nested_output = true) by reflexivity.
  split; [exact H1|].
  exact (zip_pdf_flattens plain_splitter nested_output [false; true] H1).
Defined.

Lemma zip_pdf_cancel_skips_one_directory_witness :
  (Forall (eq true) [true; true]
   /\ (length (os_walk (output_directory_path plain_splitter) nested_output)
       <= length [true; true])%nat)
  /\ archive_entries (zip_pdf plain_splitter nested_output [true; true])
     = [("1.pdf", "/home/u/out/1.pdf"); ("a.pdf", "/home/u/out/old/a.pdf")].
Proof.
  assert (H1 : Forall (eq true) [true; true]) by (repeat constructor).
  assert (H2 : (length (os_walk (output_directory_path plain_splitter) nested_output)
                <= length [true; true])%nat) by (vm_compute; lia).
  split; [auto|].
  exact (zip_pdf_cancel_skips_one_directory plain_splitter nested_output
           [true; true] H1 H2).
Defined.

Lemma zip_path_plain_names_witness :
  (output_directory_path plain_splitter = "/home/u" +:+ "/" +:+ "out"
   /\ "/home/u" <> ""
   /\ OsPath.ends_with_slash "/home/u" = false
   /\ lacks "/" "out" = true
   /\ lacks "/" "doc" = true
   /\ lacks "/" "pdf" = true
   /\ input_pdf_path plain_splitter = "/home/u" +:+ "/" +:+ "doc" +:+ "." +:+ "pdf"
   /\ lacks "." "doc" = true)
  /\ zip_path plain_splitter = "/home/u" +:+ "/" +:+ "doc" +:+ ".zip".
Proof.
  assert (H1 : output_directory_path plain_splitter = "/home/u" +:+ "/" +:+ "out")
    by reflexivity.
  assert (H2 : "/home/u" <> "") by discriminate.
  assert (H3 : OsPath.ends_with_slash "/home/u" = false) by reflexivity.
  assert (H4 : lacks "/" "out" = true) by reflexivity.
  assert (H5 : lacks "/" "doc" = true) by reflexivity.
  assert (H6 : lacks "/" "pdf" = true) by reflexivity.
  assert (H7 : input_pdf_path plain_splitter
               = "/home/u" +:+ "/" +:+ "doc" +:+ "." +:+ "pdf") by reflexivity.
  assert (H8 : lacks "." "doc" = true) by reflexivity.
  split; [auto 10|].
  exact (proj1 (zip_path_plain_names plain_splitter "/home/u" "doc" "pdf" "/home/u"
                  "out" H1 H2 H3 H4 H5 H6) H7 H8).
Defined.

Lemma reachable_pages_per_pdf_witness :
  reachable ten_pages_window
  /\ pages_per_pdf (splitter (world ten_pages_window)) = pages_num ten_pages_window.
Proof.
  assert (H1 : reachable ten_pages_window) by (repeat constructor).
  split; [exact H1|].
  exact (proj1 (reachable_pages_per_pdf ten_pages_window H1)).
Defined.


Lemma splitPDF_raises_without_input_file_witness :
  files (world fresh_window) !! input_pdf_path (splitter (world fresh_window)) = None
  /\ exists e : Exception,
       splitPDF [] [] [] NonPdfData fresh_window = (Raise e, fresh_window).
Proof.
  assert (H1 : files (world fresh_window)
                 !! input_pdf_path (splitter (world fresh_window)) = None)
    by (vm_compute; reflexivity).
  split; [exact H1|].
  destruct (splitPDF_raises_without_input_file [] [] [] NonPdfData fresh_window H1)
    as (e & He & _).
  exists e. exact He.
Defined.


Lemma openDirectoryDialog_cancelled_witness :
  (files (world ten_pages_window) !! input_pdf_path (splitter (world ten_pages_window))
   = Some (PdfData (seq 0 10))
   /\ script_input ten_pages_window <> ""
   /\ output_directory ten_pages_window <> ""
   /\ isdir ten_pages_window "" = false)
  /\ output_directory (openDirectoryDialog "" ten_pages_window) = "/out"
  /\ output_directory_path (splitter (world (openDirectoryDialog "" ten_pages_window)))
     = "".
Proof.
  assert (H1 : files (world ten_pages_window)
                 !! input_pdf_path (splitter (world ten_pages_window))
               = Some (PdfData (seq 0 10))) by (vm_compute; reflexivity).
  assert (H2 : script_input ten_pages_window <> "") by (vm_compute; discriminate).
  assert (H3 : output_directory ten_pages_window <> "") by (vm_compute; discriminate).
  assert (H4 : isdir ten_pages_window "" = false) by (vm_compute; reflexivity).
  split; [auto 10|].
  destruct (openDirectoryDialog_cancelled [] [] [] NonPdfData ten_pages_window
              (seq 0 10) H1 H2 H3 H4) as (Ha & Hb & _).
  split; [exact Ha|exact Hb].
Defined.
